(** * Leadership chatbot backend: authentication, chat ledger and answer provider

    A shallow embedding of the Flask application under [app/]:
    [app/utils/security.py], [app/routes/auth.py], [app/routes/chat.py],
    [app/services/llama_service.py], [app/models/chat_history.py] and the JWT
    loaders of [app/__init__.py].

    Python strings are modelled as [string]; a character stands for a code
    point below 256.  Python integers are [Z].  Request bodies and query
    strings are dictionaries ([gmap]).  Database tables are lists of rows in
    insertion (rowid) order. *)

From stdpp Require Import base strings gmap list sorting.
From Stdlib Require Import ZArith NArith Ascii String DecimalString DecimalZ Lia.

Open Scope string_scope.

(** ** Results of fallible Python code *)

(** A Python call either returns a value or raises an exception of some
    class; [E] is the type of the exception instance. *)
Inductive result (E A : Type) : Type :=
| Ok (a : A)
| Raise (e : E).
Arguments Ok {E A} a.
Arguments Raise {E A} e.

Definition bind {E A B} (r : result E A) (k : A -> result E B) : result E B :=
  match r with
  | Ok a => k a
  | Raise e => Raise e
  end.

(** [try: body / except E as e: handler e]. *)
Definition try_except {E A} (body : result E A) (handler : E -> result E A)
  : result E A :=
  match body with
  | Ok a => Ok a
  | Raise e => handler e
  end.

Declare Scope py_scope.
Delimit Scope py_scope with py.
Notation "'call' x := c 'in' k" := (bind c (fun x => k))
  (at level 10, x name, c at level 100, k at level 200,
   format "'[v' 'call'  x  :=  c  'in' '/' k ']'") : py_scope.

(** ** Python builtins used by the handlers *)

Module Py.

(** Character code. *)
Definition code (c : ascii) : N := N_of_ascii c.

Definition in_range (lo hi : N) (c : ascii) : bool :=
  ((lo <=? code c) && (code c <=? hi))%N.

(** [str.isspace] on code points below 256: the set matched by [\s] of the
    [re] module on [str] patterns. *)
Definition is_space (c : ascii) : bool :=
  in_range 9 13 c || in_range 28 32 c || (code c =? 133)%N || (code c =? 160)%N.

Definition is_digit (c : ascii) : bool := in_range 48 57 c.
Definition is_upper (c : ascii) : bool := in_range 65 90 c.
Definition is_lower (c : ascii) : bool := in_range 97 122 c.

(** [\w] of the [re] module on [str] patterns, for code points below 256:
    alphanumeric characters ([str.isalnum]) and the underscore. *)
Definition is_word (c : ascii) : bool :=
  is_digit c || is_upper c || is_lower c || (code c =? 95)%N
  || (code c =? 170)%N || in_range 178 179 c || (code c =? 181)%N
  || in_range 185 186 c || in_range 188 190 c
  || in_range 192 214 c || in_range 216 246 c || in_range 248 255 c.

(** ASCII upper-casing; the keywords of the patterns below are ASCII, and no
    code point below 256 other than the two ASCII cases of a letter matches
    it under [re.IGNORECASE]. *)
Definition to_upper (c : ascii) : ascii :=
  if is_lower c then ascii_of_N (code c - 32) else c.

Definition eqb_ci (a b : ascii) : bool := Ascii.eqb (to_upper a) (to_upper b).

(** The whitespace [int()] ignores around a number: the ASCII whitespace
    and, of the code points from 128 to 255, the two Unicode spaces.  (The
    separators 28 to 31 are whitespace for [\s] but not here.) *)
Definition is_int_space (c : ascii) : bool :=
  in_range 9 13 c || (code c =? 32)%N || (code c =? 133)%N || (code c =? 160)%N.

(** Removal of leading and of trailing characters of a class. *)
Fixpoint lstrip (f : ascii -> bool) (s : string) : string :=
  match s with
  | EmptyString => EmptyString
  | String c s' => if f c then lstrip f s' else s
  end.

Fixpoint rstrip (f : ascii -> bool) (s : string) : string :=
  match s with
  | EmptyString => EmptyString
  | String c s' =>
      match rstrip f s' with
      | EmptyString => if f c then EmptyString else String c EmptyString
      | r => String c r
      end
  end.

Definition strip (f : ascii -> bool) (s : string) : string :=
  rstrip f (lstrip f s).

(** [str(n)] for an integer [n]: decimal digits, with a leading minus sign
    for negative numbers. *)
Definition str (n : Z) : string := NilZero.string_of_int (Z.to_int n).

(** Digit-group underscores: a single underscore may stand between two
    digits.  [ungroup] removes them, and fails on an underscore that is not
    between two digits. *)
Fixpoint ungroup (prev_digit : bool) (s : string) : option string :=
  match s with
  | EmptyString => Some EmptyString
  | String c s' =>
      if Ascii.eqb c "_" then
        match prev_digit, s' with
        | true, String d _ => if is_digit d then ungroup false s' else None
        | _, _ => None
        end
      else option_map (String c) (ungroup (is_digit c) s')
  end.

(** A sign and decimal digits, possibly grouped by underscores. *)
Definition signed_digits (s : string) : option Z :=
  match ungroup false s with
  | Some t => option_map Z.of_int (NilZero.int_of_string t)
  | None => None
  end.

(** [int(s)] for a string [s]: surrounding whitespace is ignored, an
    optional sign is followed by one or more decimal digits, which single
    underscores may group; anything else raises [ValueError] ([None]).
    Integers and their texts are unbounded: the cap that recent
    interpreters put on the number of digits of a decimal text (4300 unless
    configured otherwise) is taken as switched off, in [int] as in [str]. *)
Definition int (s : string) : option Z :=
  match strip is_int_space s with
  | String "+" r =>
      match r with
      | String "-" _ => None
      | _ => signed_digits r
      end
  | t => signed_digits t
  end.

(** [not x] for a string: only the empty string is falsy. *)
Definition falsy (s : string) : bool :=
  match s with EmptyString => true | _ => false end.

(** Truth value of the result of [.first()]: a row is truthy, [None] is
    not. *)
Definition truthy {A} (row : option A) : bool :=
  match row with Some _ => true | None => false end.

End Py.

(** ** The [re] module, as far as [security.py] uses it *)

Module Re.

(** [re.sub(pattern, '', s)]: scan [s] from left to right; at each position
    not inside an earlier match, try the pattern; a match is deleted and the
    scan resumes right after it; otherwise the character is kept.  A matcher
    [m prev_word rest] returns the length of the match at the current
    position, where [prev_word] tells whether the preceding character of the
    subject is a word character (for [\b]).  None of the patterns below can
    match the empty string. *)
Fixpoint sub_empty (m : bool -> string -> option nat)
         (prev_word : bool) (skip : nat) (s : string) : string :=
  match s with
  | EmptyString => EmptyString
  | String c s' =>
      match skip with
      | S k => sub_empty m (Py.is_word c) k s'
      | O =>
          match m prev_word s with
          | Some (S n) => sub_empty m (Py.is_word c) n s'
          | _ => String c (sub_empty m (Py.is_word c) 0 s')
          end
      end
  end.

(** Position of the first occurrence of character [c]. *)
Fixpoint find_char (c : ascii) (s : string) : option nat :=
  match s with
  | EmptyString => None
  | String a s' => if Ascii.eqb a c then Some 0 else option_map S (find_char c s')
  end.

Fixpoint drop (n : nat) (s : string) : string :=
  match n, s with
  | S k, String _ s' => drop k s'
  | _, _ => s
  end.

(** [strip_prefix p s]: the rest of [s] after the literal prefix [p]. *)
Fixpoint strip_prefix (p s : string) : option string :=
  match p, s with
  | EmptyString, _ => Some s
  | String a p', String b s' => if Ascii.eqb a b then strip_prefix p' s' else None
  | String _ _, EmptyString => None
  end.

(** The same, ignoring case ([re.IGNORECASE]). *)
Fixpoint strip_prefix_ci (p s : string) : option string :=
  match p, s with
  | EmptyString, _ => Some s
  | String a p', String b s' => if Py.eqb_ci a b then strip_prefix_ci p' s' else None
  | String _ _, EmptyString => None
  end.

(** Length of the longest prefix whose characters satisfy [f]: a greedy
    [\s*] or [\w*]. *)
Fixpoint span (f : ascii -> bool) (s : string) : nat :=
  match s with
  | String c s' => if f c then S (span f s') else 0
  | EmptyString => 0
  end.

(** Is the position in front of [s] a word boundary, the preceding
    character being a word character or not? *)
Definition at_boundary (prev_word : bool) (s : string) : bool :=
  match s with
  | EmptyString => prev_word
  | String c _ => xorb prev_word (Py.is_word c)
  end.

(** [<script.*?>.*?</script>] with [re.DOTALL]: the literal [<script], the
    first [>] after it, then the first [</script>] after that. *)
Definition match_script (_ : bool) (s : string) : option nat :=
  match strip_prefix "<script" s with
  | None => None
  | Some r =>
      match find_char ">" r with
      | None => None
      | Some j =>
          match index 0 "</script>" (drop (S j) r) with
          | None => None
          | Some k => Some (7 + j + 1 + k + 9)
          end
      end
  end.

(** End of a tag: the first [>], with no line feed before it (without
    [re.DOTALL] the dot does not match a line feed). *)
Fixpoint tag_end (r : string) : option nat :=
  match r with
  | EmptyString => None
  | String c r' =>
      if Ascii.eqb c ">" then Some 0
      else if Ascii.eqb c "010" then None
      else option_map S (tag_end r')
  end.

(** [<.*?>]. *)
Definition match_tag (_ : bool) (s : string) : option nat :=
  match s with
  | String "<" r => option_map (fun j => j + 2) (tag_end r)
  | _ => None
  end.

(** The alternatives of [(ALTER|CREATE|DELETE|DROP|EXEC(UTE)?|INSERT|SELECT|UPDATE)]
    in the order the engine tries them ([EXEC(UTE)?] is greedy). *)
Definition sql_keywords : list string :=
  ["ALTER"; "CREATE"; "DELETE"; "DROP"; "EXECUTE"; "EXEC"; "INSERT"; "SELECT"; "UPDATE"].

Fixpoint first_keyword (kws : list string) (s : string) : option nat :=
  match kws with
  | [] => None
  | kw :: kws' =>
      match strip_prefix_ci kw s with
      | Some rest =>
          if at_boundary true rest then Some (String.length kw)
          else first_keyword kws' s
      | None => first_keyword kws' s
      end
  end.

(** [\b(ALTER|...|UPDATE)\b] with [re.IGNORECASE]. *)
Definition match_keyword (prev_word : bool) (s : string) : option nat :=
  if at_boundary prev_word s then first_keyword sql_keywords s else None.

(** The tail [\s+\w+\s*=\s*\w+\s*($|\b)] after [OR] or [AND].  Every
    quantifier takes its whole run (the classes are disjoint); only the last
    [\s*] can give characters back: it keeps its run when the subject ends
    there or a word character follows, and otherwise gives all of it back,
    the match ending right after the second word. *)
Definition match_equality (rest : string) : option nat :=
  let n1 := span Py.is_space rest in
  let r1 := drop n1 rest in
  let m1 := span Py.is_word r1 in
  let r2 := drop m1 r1 in
  let n2 := span Py.is_space r2 in
  match drop n2 r2 with
  | String "=" r3 =>
      let n3 := span Py.is_space r3 in
      let r4 := drop n3 r3 in
      let m2 := span Py.is_word r4 in
      let r5 := drop m2 r4 in
      let n4 := span Py.is_space r5 in
      let keep :=
        match drop n4 r5 with
        | EmptyString => true
        | String c _ => Py.is_word c
        end in
      match n1, m1, m2 with
      | S _, S _, S _ =>
          Some (n1 + m1 + n2 + 1 + n3 + m2 + (if keep then n4 else 0))
      | _, _, _ => None
      end
  | _ => None
  end.

(** [(\b(OR|AND)\b\s+\w+\s*=\s*\w+\s*($|\b))] with [re.IGNORECASE]. *)
Definition match_bool_equality (prev_word : bool) (s : string) : option nat :=
  if at_boundary prev_word s then
    match strip_prefix_ci "OR" s with
    | Some rest => option_map (fun n => 2 + n) (match_equality rest)
    | None =>
        match strip_prefix_ci "AND" s with
        | Some rest => option_map (fun n => 3 + n) (match_equality rest)
        | None => None
        end
    end
  else None.

End Re.

(** ** Third-party collaborators *)

(** The two e-mail checks the signup route relies on.  Neither library is
    part of the application: [marshmallow_email] is the validator behind
    [fields.Email] and [validate_email_lib] is [email_validator.validate_email],
    which returns the normalized address ([valid.email]) or raises
    [EmailNotValidError] with a message. *)
Class EmailLibs := {
  marshmallow_email : string -> bool;
  validate_email_lib : string -> result string string
}.

(** ** [app/utils/security.py] *)

Module Security.

Definition validate_email `{EmailLibs} (email : string) : bool * string :=
  match validate_email_lib email with
  | Ok valid_email => (true, valid_email)
  | Raise e => (false, e)
  end.

(** The double quote of the punctuation class of [validate_password]. *)
Definition dquote : ascii := "034"%char.

(** The punctuation class of the last check, in source order; the double
    quote is its fourteenth member. *)
Definition special_chars : list ascii :=
  ["!"; "@"; "#"; "$"; "%"; "^"; "&"; "*"; "("; ")"; ","; "."; "?"; dquote;
   ":"; "{"; "}"; "|"; "<"; ">"]%char.

Definition is_special (c : ascii) : bool :=
  existsb (Ascii.eqb c) special_chars.

(** [re.search(class, s)] for a one-character class. *)
Fixpoint search (f : ascii -> bool) (s : string) : bool :=
  match s with
  | EmptyString => false
  | String c s' => f c || search f s'
  end.

Definition validate_password (password : string) : bool * string :=
  if (String.length password <? 8)%nat then
    (false, "Password must be at least 8 characters long.")
  else if negb (search Py.is_digit password) then
    (false, "Password must contain at least one digit.")
  else if negb (search Py.is_upper password) then
    (false, "Password must contain at least one uppercase letter.")
  else if negb (search Py.is_lower password) then
    (false, "Password must contain at least one lowercase letter.")
  else if negb (search is_special password) then
    (false, "Password must contain at least one special character.")
  else (true, "Password is valid.").

(** The four substitutions of [sanitize_input], in source order. *)
Definition remove_scripts (s : string) : string :=
  Re.sub_empty Re.match_script false 0 s.
Definition remove_tags (s : string) : string :=
  Re.sub_empty Re.match_tag false 0 s.
Definition remove_keywords (s : string) : string :=
  Re.sub_empty Re.match_keyword false 0 s.
Definition remove_bool_equalities (s : string) : string :=
  Re.sub_empty Re.match_bool_equality false 0 s.

Definition sanitize_input (input_str : string) : string :=
  if Py.falsy input_str then input_str
  else
    let input_str := remove_scripts input_str in
    let input_str := remove_tags input_str in
    let input_str := remove_keywords input_str in
    let input_str := remove_bool_equalities input_str in
    input_str.

End Security.

(** ** Requests and responses *)

(** A value of a JSON request body.  Every field the schemas declare is a
    string, so arrays and objects are not looked into. *)
Inductive json : Type :=
| JNull
| JBool (b : bool)
| JNum (n : Z)
| JStr (s : string)
| JCompound.

Inductive token_type : Type := Access | Refresh.

(** The claims of a signed JWT.  Signing and the expiry claims belong to
    flask_jwt_extended and are not modelled: a token stands for the claims it
    carries. *)
Record Token : Type := { typ : token_type; sub : string }.

(** What a handler hands to [jsonify].  [PTime t] is the string
    [datetime.isoformat()] gives for the instant [t], [PToken t] the encoded
    form of the token [t]. *)
#[local] Unset Elimination Schemes.
Inductive payload : Type :=
| PNum (n : Z)
| PStr (s : string)
| PTime (t : Z)
| PToken (t : Token)
| PList (l : list payload)
| PDict (fields : list (string * payload)).
#[local] Set Elimination Schemes.

Record response : Type := { body : payload; status : Z }.

Definition jsonify (fields : list (string * payload)) (code : Z) : response :=
  {| body := PDict fields; status := code |}.

(** An exception that no handler catches: Flask answers 500. *)
Definition internal_server_error : response :=
  jsonify [("error", PStr "Internal Server Error")] 500.

(** ** Models *)

Module Models.

(** Modelled from the spec: [app/models/user.py] is not among the sources.
    The spec gives a user an [id], a [username], an [email] and a
    [password_hash], an irreversible salted hash of the password that is
    never returned.  The hash is idealised: the only thing that can be done
    with it is to check a candidate password against it, and the check
    succeeds exactly for the password it was made from. *)
Inductive PasswordHash : Type := Hashed (password : string).

Record User : Type := {
  user_id : Z;
  username : string;
  email : string;
  password_hash : PasswordHash
}.

(** Modelled from the spec: [User.check_password], the hash comparison of
    the missing model. *)
Definition check_password (u : User) (password : string) : bool :=
  match password_hash u with
  | Hashed p => String.eqb p password
  end.

(** Modelled from the spec: [User.to_dict], which returns the id, the
    username and the e-mail, never the hash. *)
Definition user_to_dict (u : User) : payload :=
  PDict [("id", PNum (user_id u)); ("username", PStr (username u));
         ("email", PStr (email u))].

(** [app/models/chat_history.py]. *)
Record ChatHistory : Type := {
  id : Z;
  chat_user_id : Z;
  question : string;
  response_text : string;
  timestamp : Z
}.

Definition to_dict (c : ChatHistory) : payload :=
  PDict [("id", PNum (id c)); ("user_id", PNum (chat_user_id c));
         ("question", PStr (question c)); ("response", PStr (response_text c));
         ("timestamp", PTime (timestamp c))].

End Models.
Import Models.

(** ** The relational store *)

(** Both tables, rows in insertion order. *)
Record Db : Type := { users : list User; chats : list ChatHistory }.

Definition empty_db : Db := {| users := []; chats := [] |}.

(** ** SQLite, the configured store *)

(** Every configuration of [config.py] points the application at a SQLite
    file unless the environment says otherwise; the store is modelled as
    that engine. *)
Module Sqlite.

(** An integer bound to a statement has to fit SQLite's signed 64-bit
    INTEGER; for any other Python integer the driver raises
    [OverflowError]. *)
Definition bindable (n : Z) : bool :=
  ((- 2 ^ 63 <=? n) && (n <? 2 ^ 63))%Z.

(** [ORDER BY timestamp DESC] as SQLite evaluates it on a table scan: rows
    come in rowid order and the sort keeps rows of equal timestamp in that
    order. *)
Fixpoint insert_row (c : ChatHistory) (rows : list ChatHistory)
  : list ChatHistory :=
  match rows with
  | [] => [c]
  | x :: rows' =>
      if (timestamp x <=? timestamp c)%Z then c :: rows
      else x :: insert_row c rows'
  end.

Definition order_by_timestamp_desc (rows : list ChatHistory)
  : list ChatHistory :=
  fold_right insert_row [] rows.

(** What the driver raises for an integer it cannot bind. *)
Definition OverflowError : string :=
  "Python int too large to convert to SQLite INTEGER".

End Sqlite.

Module Query.

(** The next value of an integer primary key: one more than the largest
    key in the table. *)
Definition next_id (ids : list Z) : Z := (1 + fold_right Z.max 0 ids)%Z.

(** [User.query.get(i)], for a key the driver can bind.  On a request the
    key has passed the user lookup of [Guard.load_user], which accounts for
    the other keys. *)
Definition user_get (db : Db) (i : Z) : option User :=
  List.find (fun u => (user_id u =? i)%Z) (users db).

(** [User.query.filter_by(username=name).first()]. *)
Definition user_by_username (db : Db) (name : string) : option User :=
  List.find (fun u => String.eqb (username u) name) (users db).

(** [User.query.filter_by(email=addr).first()]. *)
Definition user_by_email (db : Db) (addr : string) : option User :=
  List.find (fun u => String.eqb (email u) addr) (users db).

(** [db.session.add(User(username, email, password)); db.session.commit()]:
    the row with its key assigned, and the new store. *)
Definition add_user (db : Db) (name addr password : string) : User * Db :=
  let u := {| user_id := next_id (map user_id (users db)); username := name;
              email := addr; password_hash := Hashed password |} in
  (u, {| users := users db ++ [u]; chats := chats db |}).

(** [ChatHistory.query.get(i)]: the driver binds the key. *)
Definition chat_get (db : Db) (i : Z) : result string (option ChatHistory) :=
  if Sqlite.bindable i then
    Ok (List.find (fun c => (id c =? i)%Z) (chats db))
  else Raise Sqlite.OverflowError.

(** [ChatHistory.query.filter_by(user_id=uid)]. *)
Definition chats_of (db : Db) (uid : Z) : list ChatHistory :=
  List.filter (fun c => (chat_user_id c =? uid)%Z) (chats db).

(** [LIMIT limit OFFSET offset] on ordered rows: a negative offset skips
    nothing and a negative limit keeps every row. *)
Definition limit_offset (limit offset : Z) (rows : list ChatHistory)
  : list ChatHistory :=
  let rows := drop (Z.to_nat offset) rows in
  if (limit <? 0)%Z then rows else take (Z.to_nat limit) rows.

(** [ChatHistory.query.filter_by(user_id=uid)
      .order_by(ChatHistory.timestamp.desc())
      .limit(limit).offset(offset).all()]: the driver binds the three
    integers. *)
Definition history_page (db : Db) (uid limit offset : Z)
  : result string (list ChatHistory) :=
  if Sqlite.bindable uid && Sqlite.bindable limit && Sqlite.bindable offset
  then Ok (limit_offset limit offset
             (Sqlite.order_by_timestamp_desc (chats_of db uid)))
  else Raise Sqlite.OverflowError.

(** [ChatHistory.query.filter_by(user_id=uid).count()]. *)
Definition history_count (db : Db) (uid : Z) : result string Z :=
  if Sqlite.bindable uid then Ok (Z.of_nat (List.length (chats_of db uid)))
  else Raise Sqlite.OverflowError.

(** [db.session.add(ChatHistory(...)); db.session.commit()]; the column
    default [datetime.utcnow] reads the clock, [now]. *)
Definition add_chat (db : Db) (now uid : Z) (q r : string) : ChatHistory * Db :=
  let c := {| id := next_id (map id (chats db)); chat_user_id := uid;
              question := q; response_text := r; timestamp := now |} in
  (c, {| users := users db; chats := chats db ++ [c] |}).

End Query.

(** ** JWT loaders of [app/__init__.py] *)

Module Jwt.

(** [@jwt.user_identity_loader]. *)
Definition user_identity_lookup (user : Z) : string := Py.str user.

(** [create_access_token(identity=...)] and [create_refresh_token]: the
    identity goes through the identity loader into the [sub] claim. *)
Definition create_access_token (identity : Z) : Token :=
  {| typ := Access; sub := user_identity_lookup identity |}.
Definition create_refresh_token (identity : Z) : Token :=
  {| typ := Refresh; sub := user_identity_lookup identity |}.

(** [get_jwt_identity()] for the token of the request. *)
Definition get_jwt_identity (t : Token) : string := sub t.

(** [@jwt.user_lookup_loader]: [ValueError] is caught and gives [None].
    The lookup is [Query.user_get]; [Guard.load_user] adds what the driver
    does with a key it cannot bind. *)
Definition user_lookup_callback (db : Db) (jwt_data : Token) : option User :=
  let identity := sub jwt_data in
  match Py.int identity with
  | Some i => Query.user_get db i
  | None => None
  end.

End Jwt.

(** ** [app/services/llama_service.py] *)

(** The hosted retrieval service and the LLM client.  Python objects of the
    SDK are opaque handles; every constructor and the remote call may raise.
    [agent_run agent query] is [str(await agent.run(query))]. *)
Class LlamaCloud := {
  handle : Type;
  LlamaCloudIndex : option string -> option string -> option string ->
                    option string -> result string handle;
  as_retriever : handle -> result string handle;
  OpenAI : result string handle;
  RetrieverQueryEngine_from_args : handle -> handle -> result string handle;
  QueryEngineTool_from_defaults : handle -> result string handle;
  FunctionAgent : handle -> handle -> result string handle;
  agent_run : handle -> string -> result string string
}.

Module LlamaService.

Definition fallback : string :=
  "I'm sorry, but I encountered an error while processing your question.".

(** The body of the [try] block of [get_response].  [config] is
    [current_app.config]; copying the OpenAI key into [os.environ], the log
    lines and the prompt template, which is built from constants, have no
    effect on the result. *)
Definition get_response_try `{LlamaCloud} (config : gmap string string)
           (query : string) : result string string :=
  (let api_key := config !! "LLAMA_CLOUD_API_KEY" in
   let index_name := config !! "LLAMA_CLOUD_INDEX_NAME" in
   let project_name := config !! "LLAMA_CLOUD_PROJECT_NAME" in
   let organization_id := config !! "LLAMA_CLOUD_ORGANIZATION_ID" in
   call index := LlamaCloudIndex index_name project_name organization_id api_key in
   call retriever := as_retriever index in
   call llm := OpenAI in
   call query_engine := RetrieverQueryEngine_from_args retriever llm in
   call query_engine_tool := QueryEngineTool_from_defaults query_engine in
   call agent := FunctionAgent query_engine_tool llm in
   call response := agent_run agent query in
   Ok response)%py.

(** [get_response]: [except Exception] logs and returns the fallback. *)
Definition get_response `{LlamaCloud} (config : gmap string string)
           (query : string) : result string string :=
  try_except (get_response_try config query) (fun e => Ok fallback).

End LlamaService.

(** ** marshmallow schemas of the routes *)

Module Schema.

(** [fields.Str(required=True, validate=...)]: the field must be present,
    be a string and pass the validator; otherwise the field is in error. *)
Definition load_str (data : gmap string json) (name : string)
           (valid : string -> bool) : result string string :=
  match data !! name with
  | Some (JStr s) => if valid s then Ok s else Raise name
  | _ => Raise name
  end.

Definition error_of {A} (r : result string A) : list string :=
  match r with
  | Ok _ => []
  | Raise name => [name]
  end.

(** Keys of the body that the schema does not declare: marshmallow rejects
    them. *)
Definition unknown_fields (known : list string) (data : gmap string json)
  : list string :=
  List.filter (fun k => negb (existsb (String.eqb k) known))
              (map fst (map_to_list data)).

(** [validate.Length(min, max)]. *)
Definition length_between (lo hi : nat) (s : string) : bool :=
  ((lo <=? String.length s) && (String.length s <=? hi))%nat.
Definition length_at_least (lo : nat) (s : string) : bool :=
  (lo <=? String.length s)%nat.

Record UserData : Type := {
  v_username : string;
  v_email : string;
  v_password : string
}.

(** [UserSchema().load(data)].  [err.messages] is abstracted to the names of
    the fields in error. *)
Definition user_schema_load `{EmailLibs} (data : gmap string json)
  : result (list string) UserData :=
  let u := load_str data "username" (length_between 3 50) in
  let e := load_str data "email" marshmallow_email in
  let p := load_str data "password" (length_at_least 8) in
  let unknown := unknown_fields ["username"; "email"; "password"] data in
  match u, e, p, unknown with
  | Ok username, Ok email, Ok password, [] =>
      Ok {| v_username := username; v_email := email; v_password := password |}
  | _, _, _, _ =>
      Raise (error_of u ++ error_of e ++ error_of p ++ unknown)%list
  end.

(** [QuestionSchema().load(data)]. *)
Definition question_schema_load (data : gmap string json)
  : result (list string) string :=
  let q := load_str data "question" (fun _ => true) in
  let unknown := unknown_fields ["question"] data in
  match q, unknown with
  | Ok question, [] => Ok question
  | _, _ => Raise (error_of q ++ unknown)%list
  end.

Definition messages (fields : list string) : payload :=
  PList (map PStr fields).

End Schema.

(** ** [app/routes/auth.py] *)

Module Auth.

Definition signup `{EmailLibs} (db : Db) (data : gmap string json)
  : response * Db :=
  match Schema.user_schema_load data with
  | Raise err => (jsonify [("error", Schema.messages err)] 400, db)
  | Ok validated_data =>
      let username := Security.sanitize_input (Schema.v_username validated_data) in
      let email := Schema.v_email validated_data in
      let password := Schema.v_password validated_data in
      let '(is_valid_email, email_msg) := Security.validate_email email in
      if negb is_valid_email then
        (jsonify [("error", PStr email_msg)] 400, db)
      else
        let '(is_valid_password, password_msg) :=
          Security.validate_password password in
        if negb is_valid_password then
          (jsonify [("error", PStr password_msg)] 400, db)
        else if Py.truthy (Query.user_by_username db username) then
          (jsonify [("error", PStr "Username already exists")] 409, db)
        else if Py.truthy (Query.user_by_email db email) then
          (jsonify [("error", PStr "Email already exists")] 409, db)
        else
          let '(new_user, db') := Query.add_user db username email password in
          (jsonify [("message", PStr "User created successfully");
                    ("user", user_to_dict new_user)] 201, db')
  end.

(** [login].  The body is the parsed JSON object; its values are strings, as
    the documented request schema declares (other JSON values are outside
    this model). *)
Definition login (db : Db) (data : gmap string string) : response :=
  let username := Security.sanitize_input (default "" (data !! "username")) in
  let password := default "" (data !! "password") in
  let user := Query.user_by_username db username in
  match user with
  | None => jsonify [("error", PStr "Invalid credentials")] 401
  | Some user =>
      if negb (check_password user password) then
        jsonify [("error", PStr "Invalid credentials")] 401
      else
        let access_token := Jwt.create_access_token (user_id user) in
        let refresh_token := Jwt.create_refresh_token (user_id user) in
        jsonify [("access_token", PToken access_token);
                 ("refresh_token", PToken refresh_token);
                 ("user", user_to_dict user)] 200
  end.

End Auth.

(** ** [app/routes/chat.py] *)

Module Chat.

(** The body of [ask_question], which runs once [@jwt_required()] has let
    the request through ([Route.ask_question]): [identity] is
    [get_jwt_identity()], [now] the clock read by the timestamp default. *)
Definition ask_question `{LlamaCloud} (config : gmap string string)
           (db : Db) (now : Z) (identity : string) (data : gmap string json)
  : response * Db :=
  match Schema.question_schema_load data with
  | Raise err => (jsonify [("error", Schema.messages err)] 400, db)
  | Ok validated_question =>
      match Py.int identity with
      | None => (internal_server_error, db)
      | Some uid =>
          match Query.user_get db uid with
          | None => (jsonify [("error", PStr "User not found")] 404, db)
          | Some user =>
              let question := Security.sanitize_input validated_question in
              match LlamaService.get_response config question with
              | Raise _ => (internal_server_error, db)
              | Ok response =>
                  let '(chat_history, db') :=
                    Query.add_chat db now (user_id user) question response in
                  (jsonify [("question", PStr question);
                            ("response", PStr response);
                            ("chat_id", PNum (id chat_history))] 200, db')
              end
          end
      end
  end.

(** [request.args.get(key, default, type=int)]: the default when the key is
    absent or its value is not an integer. *)
Definition args_get_int (args : gmap string string) (key : string)
           (default : Z) : Z :=
  match args !! key with
  | None => default
  | Some v =>
      match Py.int v with
      | Some n => n
      | None => default
      end
  end.

(** The body of [get_chat_history].  Nothing catches what the two queries
    raise. *)
Definition get_chat_history (db : Db) (identity : string)
           (args : gmap string string) : response :=
  let user_id := identity in
  let limit := args_get_int args "limit" 10 in
  let offset := args_get_int args "offset" 0 in
  let limit := if ((limit <? 1) || (100 <? limit))%Z then 10%Z else limit in
  let offset := if (offset <? 0)%Z then 0%Z else offset in
  match Py.int user_id with
  | None => internal_server_error
  | Some uid =>
      match Query.history_page db uid limit offset with
      | Raise _ => internal_server_error
      | Ok chat_history =>
          match Query.history_count db uid with
          | Raise _ => internal_server_error
          | Ok total =>
              jsonify [("chat_history", PList (map to_dict chat_history));
                       ("total", PNum total);
                       ("limit", PNum limit);
                       ("offset", PNum offset)] 200
          end
      end
  end.

(** The body of [get_chat_item]; [chat_id] is what the [<int:chat_id>]
    converter made of the path segment.  Nothing catches what the lookup
    raises. *)
Definition get_chat_item (db : Db) (identity : string) (chat_id : Z)
  : response :=
  let user_id := identity in
  match Query.chat_get db chat_id with
  | Raise _ => internal_server_error
  | Ok None => jsonify [("error", PStr "Chat item not found")] 404
  | Ok (Some chat) =>
      match Py.int user_id with
      | None => internal_server_error
      | Some uid =>
          if negb (chat_user_id chat =? uid)%Z then
            jsonify [("error",
                      PStr "You do not have permission to view this chat item")] 403
          else jsonify [("chat", to_dict chat)] 200
      end
  end.

End Chat.

(** ** Reference instances of the collaborators *)

Module Sample.

(** A stand-in for the e-mail libraries: an address is accepted when it has
    an [@]; normalization lower-cases the domain, as email_validator does. *)
Definition to_lower (c : ascii) : ascii :=
  if Py.is_upper c then ascii_of_N (Py.code c + 32) else c.

Fixpoint lower (s : string) : string :=
  match s with
  | EmptyString => EmptyString
  | String c s' => String (to_lower c) (lower s')
  end.

Fixpoint lower_domain (s : string) : string :=
  match s with
  | EmptyString => EmptyString
  | String c s' => if Ascii.eqb c "@" then String c (lower s')
                   else String c (lower_domain s')
  end.

Definition has_at (s : string) : bool := Py.truthy (Re.find_char "@" s).

Definition email_libs : EmailLibs :=
  {| marshmallow_email := has_at;
     validate_email_lib := fun s =>
       if has_at s then Ok (lower_domain s)
       else Raise "The email address is not valid. It must have exactly one @-sign." |}.

(** A provider whose index cannot be reached, and one that answers. *)
Definition unreachable_cloud : LlamaCloud :=
  {| handle := unit;
     LlamaCloudIndex := fun _ _ _ _ => Raise "Connection refused";
     as_retriever := fun _ => Ok tt;
     OpenAI := Ok tt;
     RetrieverQueryEngine_from_args := fun _ _ => Ok tt;
     QueryEngineTool_from_defaults := fun _ => Ok tt;
     FunctionAgent := fun _ _ => Ok tt;
     agent_run := fun _ _ => Ok "R" |}.

Definition quota_cloud : LlamaCloud :=
  {| handle := unit;
     LlamaCloudIndex := fun _ _ _ _ => Ok tt;
     as_retriever := fun _ => Ok tt;
     OpenAI := Ok tt;
     RetrieverQueryEngine_from_args := fun _ _ => Ok tt;
     QueryEngineTool_from_defaults := fun _ => Ok tt;
     FunctionAgent := fun _ _ => Ok tt;
     agent_run := fun _ _ => Raise "Rate limit exceeded" |}.

Definition answering_cloud : LlamaCloud :=
  {| handle := unit;
     LlamaCloudIndex := fun _ _ _ _ => Ok tt;
     as_retriever := fun _ => Ok tt;
     OpenAI := Ok tt;
     RetrieverQueryEngine_from_args := fun _ _ => Ok tt;
     QueryEngineTool_from_defaults := fun _ => Ok tt;
     FunctionAgent := fun _ _ => Ok tt;
     agent_run := fun _ _ => Ok "R" |}.

Definition signup_body (u e p : string) : gmap string json :=
  {[ "username" := JStr u; "email" := JStr e; "password" := JStr p ]}.

Definition question_body (q : string) : gmap string json :=
  {[ "question" := JStr q ]}.

(** The store after the signup of the test suite's user. *)
Definition testuser : User :=
  {| user_id := 1; username := "testuser"; email := "test@example.com";
     password_hash := Hashed "Test@123" |}.

Definition db_one_user : Db := {| users := [testuser]; chats := [] |}.

End Sample.

(** ** [app/routes/auth.py]: the routes behind a token *)

Module Session.

(** [create_access_token(identity=current_user_id)] as [refresh] calls it:
    the identity is the subject string of the presented token, and the
    identity loader's [str] of a string is that string. *)
Definition create_access_token_for (current_user_id : string) : Token :=
  {| typ := Access; sub := current_user_id |}.

(** The body of [refresh], which runs once [@jwt_required(refresh=True)]
    has let the request through ([Route.refresh]): [refresh_token] is the
    verified token of the request. *)
Definition refresh (refresh_token : Token) : response :=
  let current_user_id := Jwt.get_jwt_identity refresh_token in
  let access_token := create_access_token_for current_user_id in
  jsonify [("access_token", PToken access_token)] 200.

(** The body of [get_user] (GET /me), which runs once [@jwt_required()]
    has let the request through ([Route.get_user]): [identity] is
    [get_jwt_identity()]. *)
Definition get_user (db : Db) (identity : string) : response :=
  let current_user_id := identity in
  match Py.int current_user_id with
  | None => internal_server_error
  | Some i =>
      match Query.user_get db i with
      | None => jsonify [("error", PStr "User not found")] 404
      | Some user => jsonify [("user", user_to_dict user)] 200
      end
  end.

End Session.

(** ** [@jwt_required()] *)

Module Guard.

(** What a request presents as its bearer token: nothing, something that
    does not decode to a signed token, a token past its expiry, or a token
    that verifies. *)
Inductive bearer : Type :=
| NoToken
| Undecodable
| Expired (t : Token)
| Signed (t : Token).

(** [@jwt.expired_token_loader]. *)
Definition expired_token_callback : response :=
  jsonify [("error", PStr "Token has expired");
           ("message", PStr "The token has expired. Please log in again.")] 401.

(** [@jwt.invalid_token_loader]. *)
Definition invalid_token_callback : response :=
  jsonify [("error", PStr "Invalid token");
           ("message", PStr "Signature verification failed.")] 401.

(** [@jwt.unauthorized_loader]. *)
Definition missing_token_callback : response :=
  jsonify [("error", PStr "Authorization required");
           ("message", PStr "Request does not contain valid JWT token.")] 401.

(** The application registers no [user_lookup_error_loader]: when the user
    lookup returns [None], flask_jwt_extended answers with its default. *)
Definition user_lookup_error (identity : string) : response :=
  jsonify [("msg", PStr ("Error loading the user " ++ identity))] 401.

(** The query of [user_lookup_callback] raises for a key the driver cannot
    bind, and the loader catches [ValueError] only. *)
Definition lookup_overflows (jwt_data : Token) : bool :=
  match Py.int (sub jwt_data) with
  | Some i => negb (Sqlite.bindable i)
  | None => false
  end.

(** The user lookup that [verify_jwt_in_request] runs because a
    [user_lookup_loader] is registered. *)
Definition load_user (db : Db) (jwt_data : Token) : result response User :=
  if lookup_overflows jwt_data then Raise internal_server_error
  else
    match Jwt.user_lookup_callback db jwt_data with
    | Some user => Ok user
    | None => Raise (user_lookup_error (sub jwt_data))
    end.

(** [@jwt_required(refresh=...)]: the token of the request when the view
    may run, the response otherwise.  A token of the wrong kind goes to the
    invalid-token loader. *)
Definition jwt_required (refresh : bool) (db : Db) (auth : bearer)
  : result response Token :=
  match auth with
  | NoToken => Raise missing_token_callback
  | Undecodable => Raise invalid_token_callback
  | Expired _ => Raise expired_token_callback
  | Signed t =>
      let kind_ok :=
        match typ t with Refresh => refresh | Access => negb refresh end in
      if kind_ok then
        match load_user db t with
        | Ok _ => Ok t
        | Raise r => Raise r
        end
      else Raise invalid_token_callback
  end.

End Guard.

(** ** The protected routes, as a request reaches them *)

Module Route.

(** POST /api/ask-question. *)
Definition ask_question `{LlamaCloud} (config : gmap string string)
           (db : Db) (now : Z) (auth : Guard.bearer) (data : gmap string json)
  : response * Db :=
  match Guard.jwt_required false db auth with
  | Raise r => (r, db)
  | Ok t => Chat.ask_question config db now (Jwt.get_jwt_identity t) data
  end.

(** GET /api/chat-history. *)
Definition get_chat_history (db : Db) (auth : Guard.bearer)
           (args : gmap string string) : response :=
  match Guard.jwt_required false db auth with
  | Raise r => r
  | Ok t => Chat.get_chat_history db (Jwt.get_jwt_identity t) args
  end.

(** GET /api/chat-history/<int:chat_id>: the converter accepts a run of
    digits of any length, so [chat_id] is a natural number. *)
Definition get_chat_item (db : Db) (auth : Guard.bearer) (chat_id : N)
  : response :=
  match Guard.jwt_required false db auth with
  | Raise r => r
  | Ok t => Chat.get_chat_item db (Jwt.get_jwt_identity t) (Z.of_N chat_id)
  end.

(** GET /api/me. *)
Definition get_user (db : Db) (auth : Guard.bearer) : response :=
  match Guard.jwt_required false db auth with
  | Raise r => r
  | Ok t => Session.get_user db (Jwt.get_jwt_identity t)
  end.

(** POST /api/refresh. *)
Definition refresh (db : Db) (auth : Guard.bearer) : response :=
  match Guard.jwt_required true db auth with
  | Raise r => r
  | Ok t => Session.refresh t
  end.

End Route.

(** ** [app/services/llama_service.py]: [retrieve_context] *)

(** [retriever.retrieve(query)] of the hosted index: the retrieved nodes, or
    an exception. *)
Class LlamaRetriever `{LlamaCloud} := {
  node : Type;
  retriever_retrieve : handle -> string -> result string (list node)
}.

Module Retrieval.

(** The body of the [try] block of [retrieve_context]. *)
Definition retrieve_context_try `{LlamaRetriever} (config : gmap string string)
           (query : string) : result string (list node) :=
  (let api_key := config !! "LLAMA_CLOUD_API_KEY" in
   let index_name := config !! "LLAMA_CLOUD_INDEX_NAME" in
   let project_name := config !! "LLAMA_CLOUD_PROJECT_NAME" in
   let organization_id := config !! "LLAMA_CLOUD_ORGANIZATION_ID" in
   call index := LlamaCloudIndex index_name project_name organization_id api_key in
   call retriever := as_retriever index in
   call nodes := retriever_retrieve retriever query in
   Ok nodes)%py.

(** [retrieve_context]: [except Exception] logs and returns the empty
    list. *)
Definition retrieve_context `{LlamaRetriever} (config : gmap string string)
           (query : string) : result string (list node) :=
  try_except (retrieve_context_try config query) (fun e => Ok []).

End Retrieval.

(** * Vocabulary of the properties *)

Fixpoint all_chars (f : ascii -> bool) (s : string) : bool :=
  match s with
  | EmptyString => true
  | String c s' => f c && all_chars f s'
  end.

Definition sign_or_digit (c : ascii) : bool :=
  Ascii.eqb c "-" || Py.is_digit c.

Definition clamp_limit (limit : Z) : Z :=
  if ((1 <=? limit) && (limit <=? 100))%Z then limit else 10%Z.

Definition clamp_offset (offset : Z) : Z := Z.max 0 offset.

(** The whole listing of a user, in the order of the query. *)
Definition listing (db : Db) (uid : Z) : list ChatHistory :=
  Sqlite.order_by_timestamp_desc (Query.chats_of db uid).


(** The request of a client that presents the access token issued to the
    user [uid]. *)
Definition as_user (uid : Z) : Guard.bearer :=
  Guard.Signed (Jwt.create_access_token uid).

(** The user [uid] has an account, under a key the store can hold. *)
Definition account (db : Db) (uid : Z) : Prop :=
  Sqlite.bindable uid = true /\ exists u, Query.user_get db uid = Some u.


Definition username_taken (db : Db) (name : string) : Prop :=
  exists u, In u (users db) /\ username u = name.

Definition email_taken (db : Db) (addr : string) : Prop :=
  exists u, In u (users db) /\ email u = addr.

(** The payload passes the schema, the e-mail check and the password
    policy. *)
Definition passes_validation `{EmailLibs} (data : gmap string json)
           (v : Schema.UserData) : Prop :=
  Schema.user_schema_load data = Ok v
  /\ fst (Security.validate_email (Schema.v_email v)) = true
  /\ fst (Security.validate_password (Schema.v_password v)) = true.

Definition username_conflict : response :=
  jsonify [("error", PStr "Username already exists")] 409.

Definition email_conflict : response :=
  jsonify [("error", PStr "Email already exists")] 409.

(** Exactly one of four propositions holds. *)
Definition exactly_one_of (a b c d : Prop) : Prop :=
  (a /\ ~ b /\ ~ c /\ ~ d) \/ (~ a /\ b /\ ~ c /\ ~ d)
  \/ (~ a /\ ~ b /\ c /\ ~ d) \/ (~ a /\ ~ b /\ ~ c /\ d).

Definition invalid_credentials : response :=
  jsonify [("error", PStr "Invalid credentials")] 401.

(** The username the route looks up and the password it checks. *)
Definition login_name (data : gmap string string) : string :=
  Security.sanitize_input (default "" (data !! "username")).

Definition login_password (data : gmap string string) : string :=
  default "" (data !! "password").

Definition alice : User :=
  {| user_id := 1; username := "alice"; email := "Alice@EXAMPLE.COM";
     password_hash := Hashed "Aa1!aaaa" |}.

Inductive reachable `{EmailLibs} `{LlamaCloud} (config : gmap string string)
  : Db -> Prop :=
| reachable_empty : reachable config empty_db
| reachable_signup db data :
    reachable config db -> reachable config (snd (Auth.signup db data))
| reachable_ask db now identity data :
    reachable config db ->
    reachable config (snd (Chat.ask_question config db now identity data)).

Definition password_of (u : User) : string :=
  match password_hash u with Hashed p => p end.

Definition drop_user : User :=
  {| user_id := 1; username := ""; email := "drop@example.com";
     password_hash := Hashed "Aa1!aaaa" |}.

Definition nl : string := String "010" EmptyString.

Definition multiline_tag : string :=
  "<img" ++ nl ++ "src=x onerror=alert(1)>".

(** Does the text contain a tag, an opening angle bracket with a closing one
    somewhere after it? *)
Fixpoint contains_tag (s : string) : bool :=
  match s with
  | EmptyString => false
  | String c s' =>
      (Ascii.eqb c "<" && Py.truthy (Re.find_char ">" s')) || contains_tag s'
  end.

(** The characters of a string. *)
Definition chars (s : string) : list ascii := list_ascii_of_string s.

(** Does the tag pattern of [sanitize_input] match somewhere in the text? *)
Fixpoint has_line_tag (s : string) : bool :=
  match s with
  | EmptyString => false
  | String c s' => Py.truthy (Re.match_tag false s) || has_line_tag s'
  end.

(** Some character of the string is in the class. *)
Definition has_char (f : ascii -> bool) (s : string) : Prop :=
  exists c, In c (chars s) /\ f c = true.

(** A field of the JSON object a handler answers with. *)
Fixpoint lookup_field (name : string) (fields : list (string * payload))
  : option payload :=
  match fields with
  | [] => None
  | (k, v) :: fields' => if String.eqb k name then Some v else lookup_field name fields'
  end.

Definition field (name : string) (r : response) : option payload :=
  match body r with
  | PDict fields => lookup_field name fields
  | _ => None
  end.

(** A retriever that answers with no node, for the examples. *)
Definition empty_retriever : LlamaRetriever (H := Sample.quota_cloud) :=
  {| node := string; retriever_retrieve := fun _ _ => Ok [] |}.

Definition bob : User :=
  {| user_id := 2; username := "bob"; email := "bob@example.com";
     password_hash := Hashed "Bb2?bbbb" |}.

(** A store with two accounts and one entry of each. *)
Definition two_user_db : Db :=
  {| users := [Sample.testuser; bob];
     chats := [ {| id := 1; chat_user_id := 1; question := "Q1";
                   response_text := "R1"; timestamp := 10 |};
                {| id := 2; chat_user_id := 2; question := "Q2";
                   response_text := "R2"; timestamp := 20 |} ] |}.

(** * Properties *)

(** ** Python builtins: [int(str(n)) = n] *)

Section PyFacts.

Lemma sign_or_digit_not_space c :
  sign_or_digit c = true -> Py.is_int_space c = false.
Proof.
  destruct c as [[] [] [] [] [] [] [] []]; vm_compute; congruence.
Qed.

Lemma sign_or_digit_not_plus c :
  sign_or_digit c = true -> c <> "+"%char.
Proof.
  intros H ->. vm_compute in H. discriminate.
Qed.

Lemma uint_chars d :
  all_chars sign_or_digit (NilEmpty.string_of_uint d) = true.
Proof. induction d; simpl; auto. Qed.

Lemma str_chars n : all_chars sign_or_digit (Py.str n) = true.
Proof.
  unfold Py.str.
  destruct (Z.to_int n) as [d|d]; simpl.
  - destruct d; simpl; auto using uint_chars.
  - destruct d; simpl; auto using uint_chars.
Qed.

Lemma rstrip_id s :
  all_chars sign_or_digit s = true -> Py.rstrip Py.is_int_space s = s.
Proof.
  induction s as [|c s IH]; simpl; [reflexivity|].
  intros [Hc Hs]%andb_prop. rewrite (IH Hs).
  destruct s; [|reflexivity].
  now rewrite (sign_or_digit_not_space _ Hc).
Qed.

Lemma lstrip_id s :
  all_chars sign_or_digit s = true -> Py.lstrip Py.is_int_space s = s.
Proof.
  destruct s as [|c s]; simpl; [reflexivity|].
  intros [Hc _]%andb_prop.
  now rewrite (sign_or_digit_not_space _ Hc).
Qed.

Lemma strip_id s :
  all_chars sign_or_digit s = true -> Py.strip Py.is_int_space s = s.
Proof.
  intros H. unfold Py.strip. rewrite (lstrip_id _ H). now apply rstrip_id.
Qed.

Lemma to_int_not_nil n :
  Z.to_int n <> Decimal.Pos Decimal.Nil /\ Z.to_int n <> Decimal.Neg Decimal.Nil.
Proof.
  destruct n as [|p|p]; simpl; split; try discriminate;
    intros [= H]; revert H; apply DecimalPos.Unsigned.to_uint_nonnil.
Qed.

Lemma ungroup_id b s :
  all_chars sign_or_digit s = true -> Py.ungroup b s = Some s.
Proof.
  revert b. induction s as [|c s IH]; simpl; intros b; [reflexivity|].
  intros [Hc Hs]%andb_prop.
  assert (Hu : Ascii.eqb c "_" = false).
  { destruct (Ascii.eqb_spec c "_") as [->|]; [|reflexivity].
    vm_compute in Hc. discriminate. }
  now rewrite Hu, (IH _ Hs).
Qed.

(** Parsing the decimal text of an integer gives the integer back. *)
Lemma int_str n : Py.int (Py.str n) = Some n.
Proof.
  unfold Py.int. rewrite (strip_id _ (str_chars n)).
  pose proof (str_chars n) as Hc.
  destruct (to_int_not_nil n) as [Hp Hn].
  assert (Hparse : Py.signed_digits (Py.str n) = Some n).
  { unfold Py.signed_digits. rewrite (ungroup_id _ _ Hc).
    unfold Py.str. rewrite NilZero.isi by assumption.
    simpl. now rewrite DecimalZ.of_to. }
  destruct (Py.str n) as [|c s] eqn:E; [exact Hparse|].
  simpl in Hc. apply andb_prop in Hc as [Hc _].
  pose proof (sign_or_digit_not_plus _ Hc) as Hplus.
  destruct c as [[] [] [] [] [] [] [] []]; try exact Hparse.
  now elim Hplus.
Qed.

End PyFacts.

(** ** Token subjects *)

(** C7: issuing a token writes the integer identifier into the subject claim
    as its decimal string, for access and refresh tokens alike, and parsing
    the subject of the issued token, as the protected routes and the user
    lookup loader do, gives the original identifier back. *)
Theorem token_subject_round_trip (db : Db) (uid : Z) :
  sub (Jwt.create_access_token uid) = Py.str uid
  /\ sub (Jwt.create_refresh_token uid) = Py.str uid
  /\ Py.int (Jwt.get_jwt_identity (Jwt.create_access_token uid)) = Some uid
  /\ Py.int (Jwt.get_jwt_identity (Jwt.create_refresh_token uid)) = Some uid
  /\ Jwt.user_lookup_callback db (Jwt.create_access_token uid) = Query.user_get db uid
  /\ Jwt.user_lookup_callback db (Jwt.create_refresh_token uid) = Query.user_get db uid.
Proof.
  unfold Jwt.user_lookup_callback, Jwt.get_jwt_identity,
    Jwt.create_access_token, Jwt.create_refresh_token,
    Jwt.user_identity_lookup; simpl.
  rewrite int_str. repeat split.
Qed.

(** ** Primary-key lookups *)

Section Lookup.

Context {A : Type} (key : A -> Z).

Lemma find_absent (rows : list A) (k : Z) :
  (forall r, In r rows -> key r <> k) ->
  List.find (fun r => (key r =? k)%Z) rows = None.
Proof.
  induction rows as [|x rows IH]; simpl; intros H; [reflexivity|].
  destruct (Z.eqb_spec (key x) k) as [E|_].
  - exfalso. apply (H x); auto.
  - apply IH. intros r Hr. apply H. auto.
Qed.

Lemma find_present (rows : list A) (r : A) :
  NoDup (map key rows) -> In r rows ->
  List.find (fun x => (key x =? key r)%Z) rows = Some r.
Proof.
  induction rows as [|x rows IH]; simpl; intros Hnd Hin; [contradiction|].
  apply NoDup_cons in Hnd as [Hx Hnd].
  destruct Hin as [->|Hin].
  - now rewrite Z.eqb_refl.
  - destruct (Z.eqb_spec (key x) (key r)) as [E|_].
    + exfalso. apply Hx. rewrite E. apply list_elem_of_In, in_map, Hin.
    + now apply IH.
Qed.

End Lookup.

(** ** The token check of the protected routes *)

Lemma clamp_limit_range (limit : Z) : (1 <= clamp_limit limit <= 100)%Z.
Proof.
  unfold clamp_limit.
  destruct (Z.leb_spec 1 limit), (Z.leb_spec limit 100); simpl; lia.
Qed.

Lemma bindable_range (n : Z) :
  Sqlite.bindable n = true <-> (- 2 ^ 63 <= n < 2 ^ 63)%Z.
Proof.
  unfold Sqlite.bindable. rewrite andb_true_iff, Z.leb_le, Z.ltb_lt. tauto.
Qed.

(** A token issued to a user who has an account is let through. *)
Lemma jwt_required_account (db : Db) (uid : Z) :
  account db uid ->
  Guard.jwt_required false db (as_user uid) = Ok (Jwt.create_access_token uid).
Proof.
  intros [Hb [u Hu]].
  unfold Guard.jwt_required, as_user, Guard.load_user, Guard.lookup_overflows,
    Jwt.user_lookup_callback, Jwt.create_access_token,
    Jwt.user_identity_lookup.
  cbn [typ sub negb]. now rewrite int_str, Hb, Hu.
Qed.

(** A token whose user is not in the store is turned away with 401, before
    any view runs. *)
Lemma jwt_required_no_account (db : Db) (uid : Z) :
  Sqlite.bindable uid = true -> Query.user_get db uid = None ->
  Guard.jwt_required false db (as_user uid) =
  Raise (Guard.user_lookup_error (Py.str uid)).
Proof.
  intros Hb Hu.
  unfold Guard.jwt_required, as_user, Guard.load_user, Guard.lookup_overflows,
    Jwt.user_lookup_callback, Jwt.create_access_token,
    Jwt.user_identity_lookup.
  cbn [typ sub negb]. now rewrite int_str, Hb, Hu.
Qed.

(** A request is let through only with a verified token whose subject is
    the key of an account. *)
Lemma jwt_required_ok (refresh : bool) (db : Db) (auth : Guard.bearer)
      (t : Token) :
  Guard.jwt_required refresh db auth = Ok t ->
  auth = Guard.Signed t
  /\ exists uid u, Py.int (sub t) = Some uid
                   /\ Sqlite.bindable uid = true
                   /\ Query.user_get db uid = Some u
                   /\ Jwt.user_lookup_callback db t = Some u.
Proof.
  unfold Guard.jwt_required.
  destruct auth as [| |t'|t']; try discriminate.
  destruct (match typ t' with Access => negb refresh | Refresh => refresh end);
    [|discriminate].
  unfold Guard.load_user, Guard.lookup_overflows, Jwt.user_lookup_callback.
  destruct (Py.int (sub t')) as [i|] eqn:Hi; [|discriminate].
  destruct (Sqlite.bindable i) eqn:Hb; [|discriminate]. cbn [negb].
  destruct (Query.user_get db i) as [u|] eqn:Hu; [|discriminate].
  intros [= <-]. split; [reflexivity|]. exists i, u. now rewrite Hi.
Qed.

(** What a request that is turned away is answered. *)
Lemma jwt_required_raise (refresh : bool) (db : Db) (auth : Guard.bearer)
      (r : response) :
  Guard.jwt_required refresh db auth = Raise r ->
  status r = 401%Z \/ status r = 500%Z.
Proof.
  unfold Guard.jwt_required.
  destruct auth as [| |t'|t']; try (intros [= <-]; now left).
  destruct (match typ t' with Access => negb refresh | Refresh => refresh end);
    [|intros [= <-]; now left].
  unfold Guard.load_user.
  destruct (Guard.lookup_overflows t'); [intros [= <-]; now right|].
  destruct (Jwt.user_lookup_callback db t'); [discriminate|].
  intros [= <-]. now left.
Qed.

Lemma route_get_chat_item (db : Db) (uid : Z) (chat_id : N) :
  account db uid ->
  Route.get_chat_item db (as_user uid) chat_id =
  Chat.get_chat_item db (Py.str uid) (Z.of_N chat_id).
Proof.
  intros Ha. unfold Route.get_chat_item. now rewrite jwt_required_account.
Qed.

Lemma route_get_chat_history (db : Db) (uid : Z) (args : gmap string string) :
  account db uid ->
  Route.get_chat_history db (as_user uid) args =
  Chat.get_chat_history db (Py.str uid) args.
Proof.
  intros Ha. unfold Route.get_chat_history. now rewrite jwt_required_account.
Qed.

Lemma route_get_user (db : Db) (uid : Z) :
  account db uid ->
  Route.get_user db (as_user uid) = Session.get_user db (Py.str uid).
Proof.
  intros Ha. unfold Route.get_user. now rewrite jwt_required_account.
Qed.

Lemma route_ask_question `{C : LlamaCloud} (config : gmap string string)
      (db : Db) (now uid : Z) (data : gmap string json) :
  account db uid ->
  Route.ask_question config db now (as_user uid) data =
  Chat.ask_question config db now (Py.str uid) data.
Proof.
  intros Ha. unfold Route.ask_question. now rewrite jwt_required_account.
Qed.

(** ** Single chat entries *)

Lemma chat_get_in_range (db : Db) (chat_id : Z) :
  (- 2 ^ 63 <= chat_id < 2 ^ 63)%Z ->
  Query.chat_get db chat_id =
  Ok (List.find (fun c => (id c =? chat_id)%Z) (chats db)).
Proof.
  intros H%bindable_range. unfold Query.chat_get. now rewrite H.
Qed.

Lemma chat_get_overflow (db : Db) (chat_id : Z) :
  (2 ^ 63 <= chat_id)%Z ->
  Query.chat_get db chat_id = Raise Sqlite.OverflowError.
Proof.
  intros H. unfold Query.chat_get.
  destruct (Sqlite.bindable chat_id) eqn:E; [|reflexivity].
  apply bindable_range in E. lia.
Qed.

(** C3: the user with the account 1 asks for the entry 9223372036854775808.
    No entry has that id, and the request is answered 500, not 404: the
    lookup hands the id to the store, whose driver raises for an integer
    beyond 64 bits, and nothing catches it.  One below, the answer is the
    404 of the existence check. *)
Theorem get_chat_item_beyond_store_range :
  account two_user_db 1
  /\ (forall c, In c (chats two_user_db) -> id c <> 9223372036854775808%Z)
  /\ status (Route.get_chat_item two_user_db (as_user 1)
               9223372036854775808%N) = 500%Z
  /\ Route.get_chat_item two_user_db (as_user 1) 9223372036854775807%N =
     jsonify [("error", PStr "Chat item not found")] 404.
Proof.
  split; [split; [reflexivity|eexists; reflexivity]|].
  split; [intros c [<-|[<-|[]]]; discriminate|].
  split; vm_compute; reflexivity.
Qed.

(** ** Pagination parameters *)

Lemma clamp_limit_code (l : Z) :
  (if ((l <? 1) || (100 <? l))%Z then 10%Z else l) = clamp_limit l.
Proof.
  unfold clamp_limit.
  destruct (Z.ltb_spec l 1), (Z.ltb_spec 100 l), (Z.leb_spec 1 l),
    (Z.leb_spec l 100); simpl; try reflexivity; lia.
Qed.

Lemma clamp_offset_code (o : Z) :
  (if (o <? 0)%Z then 0%Z else o) = clamp_offset o.
Proof. unfold clamp_offset. destruct (Z.ltb_spec o 0); lia. Qed.

(** The page query on a limit the handler has clamped. *)
Lemma history_page_in_range (db : Db) (uid limit offset : Z) :
  Sqlite.bindable uid = true ->
  (1 <= limit <= 100)%Z -> (0 <= offset < 2 ^ 63)%Z ->
  Query.history_page db uid limit offset =
  Ok (take (Z.to_nat limit) (drop (Z.to_nat offset) (listing db uid))).
Proof.
  intros Hu Hl Ho. unfold Query.history_page, Query.limit_offset, listing.
  assert (Hbl : Sqlite.bindable limit = true) by (apply bindable_range; lia).
  assert (Hbo : Sqlite.bindable offset = true) by (apply bindable_range; lia).
  rewrite Hu, Hbl, Hbo. simpl.
  destruct (Z.ltb_spec limit 0); [lia|reflexivity].
Qed.

Lemma history_page_overflow (db : Db) (uid limit offset : Z) :
  (2 ^ 63 <= offset)%Z ->
  Query.history_page db uid limit offset = Raise Sqlite.OverflowError.
Proof.
  intros Ho. unfold Query.history_page.
  destruct (Sqlite.bindable offset) eqn:E.
  - apply bindable_range in E. lia.
  - now rewrite andb_false_r.
Qed.

(** The answer to a request whose offset the store can take. *)
Lemma get_chat_history_response (db : Db) (identity : string) (uid : Z)
      (args : gmap string string) :
  let limit := clamp_limit (Chat.args_get_int args "limit" 10) in
  let offset := clamp_offset (Chat.args_get_int args "offset" 0) in
  Py.int identity = Some uid ->
  Sqlite.bindable uid = true -> (offset < 2 ^ 63)%Z ->
  Chat.get_chat_history db identity args =
  jsonify [("chat_history",
            PList (map to_dict
                     (take (Z.to_nat limit)
                        (drop (Z.to_nat offset) (listing db uid)))));
           ("total", PNum (Z.of_nat (List.length (Query.chats_of db uid))));
           ("limit", PNum limit);
           ("offset", PNum offset)] 200.
Proof.
  intros limit offset Hi Hu Ho.
  unfold Chat.get_chat_history. cbv zeta.
  rewrite Hi, clamp_limit_code, clamp_offset_code.
  fold limit offset.
  rewrite history_page_in_range;
    [|exact Hu|apply clamp_limit_range|unfold offset, clamp_offset in *; lia].
  unfold Query.history_count. now rewrite Hu.
Qed.

(** The answer to a request whose offset the store cannot take. *)
Lemma get_chat_history_overflow (db : Db) (identity : string)
      (args : gmap string string) :
  (2 ^ 63 <= Chat.args_get_int args "offset" 0)%Z ->
  Chat.get_chat_history db identity args = internal_server_error.
Proof.
  intros Ho. unfold Chat.get_chat_history. cbv zeta.
  destruct (Py.int identity); [|reflexivity].
  rewrite clamp_offset_code, history_page_overflow; [reflexivity|].
  unfold clamp_offset. lia.
Qed.

(** Without the parameters, or with values that are not integers, the
    defaults 10 and 0 are used. *)
Lemma args_get_int_default (args : gmap string string) (key : string) (d : Z) :
  args !! key = None \/ (exists v, args !! key = Some v /\ Py.int v = None) ->
  Chat.args_get_int args key d = d.
Proof.
  unfold Chat.args_get_int. intros [->|(v & -> & ->)]; reflexivity.
Qed.

(** C4: the user with the account 1 asks for the history with
    [offset=9223372036854775808].  The handler resets a negative offset but
    puts no upper bound on it; the store's driver raises for an integer
    beyond 64 bits, nothing catches it, and the request is answered 500.
    One below, the answer is 200 with an empty page and the offset
    echoed. *)
Theorem get_chat_history_offset_beyond_store_range :
  account two_user_db 1
  /\ Chat.args_get_int {[ "offset" := "9223372036854775808" ]} "offset" 0 =
     9223372036854775808%Z
  /\ status (Route.get_chat_history two_user_db (as_user 1)
               {[ "offset" := "9223372036854775808" ]}) = 500%Z
  /\ Route.get_chat_history two_user_db (as_user 1)
       {[ "offset" := "9223372036854775807" ]} =
     jsonify [("chat_history", PList []); ("total", PNum 1);
              ("limit", PNum 10);
              ("offset", PNum 9223372036854775807)] 200.
Proof.
  assert (Ha : account two_user_db 1)
    by (split; [reflexivity|eexists; reflexivity]).
  split; [exact Ha|].
  split; [vm_compute; reflexivity|].
  split; [vm_compute; reflexivity|].
  set (args := {[ "offset" := "9223372036854775807" ]} : gmap string string).
  assert (El : clamp_limit (Chat.args_get_int args "limit" 10) = 10%Z)
    by (vm_compute; reflexivity).
  assert (Eo : clamp_offset (Chat.args_get_int args "offset" 0) =
               9223372036854775807%Z) by (vm_compute; reflexivity).
  rewrite (route_get_chat_history _ _ _ Ha),
    (get_chat_history_response _ _ 1);
    rewrite ?El, ?Eo; [|reflexivity|reflexivity|reflexivity].
  rewrite drop_ge; [reflexivity|].
  change (List.length (listing two_user_db 1)) with 1%nat. lia.
Qed.

(** ** Provider failures *)

Section Provider.

Context `{C : LlamaCloud}.

(** [get_response] never raises: an exception of the [try] block becomes
    the fallback answer. *)
Lemma get_response_returns config query :
  LlamaService.get_response config query =
  Ok match LlamaService.get_response_try config query with
     | Ok answer => answer
     | Raise _ => LlamaService.fallback
     end.
Proof.
  unfold LlamaService.get_response, try_except.
  now destruct (LlamaService.get_response_try config query).
Qed.

(** A failure while the index client is constructed from the configuration
    and a failure of the remote call are both failures of the [try] block. *)
Lemma index_failure config query e :
  LlamaCloudIndex (config !! "LLAMA_CLOUD_INDEX_NAME")
                  (config !! "LLAMA_CLOUD_PROJECT_NAME")
                  (config !! "LLAMA_CLOUD_ORGANIZATION_ID")
                  (config !! "LLAMA_CLOUD_API_KEY") = Raise e ->
  LlamaService.get_response_try config query = Raise e.
Proof. unfold LlamaService.get_response_try. now intros ->. Qed.

Lemma remote_call_failure config query index retriever llm engine tool agent e :
  LlamaCloudIndex (config !! "LLAMA_CLOUD_INDEX_NAME")
                  (config !! "LLAMA_CLOUD_PROJECT_NAME")
                  (config !! "LLAMA_CLOUD_ORGANIZATION_ID")
                  (config !! "LLAMA_CLOUD_API_KEY") = Ok index ->
  as_retriever index = Ok retriever ->
  OpenAI = Ok llm ->
  RetrieverQueryEngine_from_args retriever llm = Ok engine ->
  QueryEngineTool_from_defaults engine = Ok tool ->
  FunctionAgent tool llm = Ok agent ->
  agent_run agent query = Raise e ->
  LlamaService.get_response_try config query = Raise e.
Proof.
  unfold LlamaService.get_response_try.
  intros Hindex Hretriever Hllm Hengine Htool Hagent Hrun.
  rewrite Hindex; simpl. rewrite Hretriever; simpl. rewrite Hllm; simpl.
  rewrite Hengine; simpl. rewrite Htool; simpl. rewrite Hagent; simpl.
  now rewrite Hrun.
Qed.

End Provider.

(** C2: when anything raises inside the provider, [ask_question] (for a
    request that passes the schema, from an existing user) answers 200 with
    the fixed fallback string as [response], and the ledger gains one entry
    whose response is that same string; the provider's exception does not
    reach the caller. *)
Theorem ask_question_provider_failure `{C : LlamaCloud}
        (config : gmap string string) (db : Db) (now uid : Z)
        (data : gmap string json) (q : string) (user : User) (e : string) :
  Schema.question_schema_load data = Ok q ->
  Query.user_get db uid = Some user ->
  LlamaService.get_response_try config (Security.sanitize_input q) = Raise e ->
  let entry :=
    {| id := Query.next_id (map id (chats db));
       chat_user_id := user_id user;
       question := Security.sanitize_input q;
       response_text :=
         "I'm sorry, but I encountered an error while processing your question.";
       timestamp := now |} in
  LlamaService.get_response config (Security.sanitize_input q) =
    Ok "I'm sorry, but I encountered an error while processing your question."
  /\ Chat.ask_question config db now (Py.str uid) data =
     (jsonify [("question", PStr (Security.sanitize_input q));
               ("response",
                PStr "I'm sorry, but I encountered an error while processing your question.");
               ("chat_id", PNum (id entry))] 200,
      {| users := users db; chats := chats db ++ [entry] |}).
Proof.
  intros Hload Huser Hfail entry.
  assert (Hresp : LlamaService.get_response config (Security.sanitize_input q) =
                  Ok LlamaService.fallback).
  { rewrite get_response_returns. now rewrite Hfail. }
  split; [exact Hresp|].
  unfold Chat.ask_question.
  rewrite Hload, int_str, Huser, Hresp. reflexivity.
Qed.

Lemma ask_question_provider_failure_witness :
  let entry :=
    {| id := 1; chat_user_id := 1; question := "What makes a good leader?";
       response_text :=
         "I'm sorry, but I encountered an error while processing your question.";
       timestamp := 100 |} in
  LlamaService.get_response (H := Sample.quota_cloud) ∅ "What makes a good leader?" =
    Ok "I'm sorry, but I encountered an error while processing your question."
  /\ Chat.ask_question (H := Sample.quota_cloud) ∅ Sample.db_one_user 100 "1"
       (Sample.question_body "What makes a good leader?") =
     (jsonify [("question", PStr "What makes a good leader?");
               ("response",
                PStr "I'm sorry, but I encountered an error while processing your question.");
               ("chat_id", PNum 1)] 200,
      {| users := users Sample.db_one_user;
         chats := [entry] |}).
Proof.
  exact (ask_question_provider_failure (C := Sample.quota_cloud) ∅
           Sample.db_one_user 100 1
           (Sample.question_body "What makes a good leader?")
           "What makes a good leader?"
           Sample.testuser "Rate limit exceeded" eq_refl eq_refl eq_refl).
Defined.

(** ** Signup *)

Section Find.

Context {A : Type} (f : A -> bool).

Lemma truthy_find_iff (l : list A) :
  Py.truthy (List.find f l) = true <-> exists x, In x l /\ f x = true.
Proof.
  induction l as [|x l IH]; simpl.
  - split; [discriminate|]. now intros (x & [] & _).
  - destruct (f x) eqn:Hx; simpl.
    + split; [|reflexivity]. intros _. exists x. auto.
    + rewrite IH. split.
      * intros (y & Hy & Hfy). exists y. auto.
      * intros (y & [->|Hy] & Hfy); [congruence|]. exists y. auto.
Qed.

Lemma truthy_find_false (l : list A) :
  (forall x, In x l -> f x = false) -> List.find f l = None.
Proof.
  induction l as [|x l IH]; simpl; intros H; [reflexivity|].
  rewrite (H x) by auto. apply IH. auto.
Qed.

Lemma find_some_in (l : list A) x :
  List.find f l = Some x -> In x l /\ f x = true.
Proof. apply find_some. Qed.

End Find.

Lemma by_username_truthy db name :
  Py.truthy (Query.user_by_username db name) = true <-> username_taken db name.
Proof.
  unfold Query.user_by_username, username_taken. rewrite truthy_find_iff.
  split; intros (u & Hu & E); exists u; split; auto;
    now apply String.eqb_eq.
Qed.

Lemma by_email_truthy db addr :
  Py.truthy (Query.user_by_email db addr) = true <-> email_taken db addr.
Proof.
  unfold Query.user_by_email, email_taken. rewrite truthy_find_iff.
  split; intros (u & Hu & E); exists u; split; auto;
    now apply String.eqb_eq.
Qed.

Lemma not_true_false b : b <> true -> b = false.
Proof. now destruct b. Qed.

(** The status of a signup response tells the four outcomes apart. *)
Lemma signup_outcomes `{EmailLibs} (db : Db) (data : gmap string json) :
  let r := fst (Auth.signup db data) in
  exactly_one_of (status r = 201%Z) (r = username_conflict)
                 (r = email_conflict) (status r = 400%Z).
Proof.
  unfold Auth.signup, exactly_one_of, username_conflict, email_conflict.
  destruct (Schema.user_schema_load data) as [v|err]; simpl.
  2: { right; right; right. repeat split; intro; discriminate. }
  destruct (Security.validate_email (Schema.v_email v)) as [[] msg]; simpl.
  2: { right; right; right. repeat split; intro; discriminate. }
  destruct (Security.validate_password (Schema.v_password v)) as [[] pmsg]; simpl.
  2: { right; right; right. repeat split; intro; discriminate. }
  destruct (Py.truthy (Query.user_by_username db _)); simpl.
  { right; left. repeat split; try reflexivity; intro; discriminate. }
  destruct (Py.truthy (Query.user_by_email db _)); simpl.
  { right; right; left. repeat split; try reflexivity; intro; discriminate. }
  left. repeat split; try reflexivity; intro; discriminate.
Qed.

(** C5: for a payload that passes validation, the username (in the form it
    is stored, after [sanitize_input]) is looked up first and the e-mail
    second: a taken username gives 409 "Username already exists" whether or
    not the e-mail is taken too, a taken e-mail alone gives 409 "Email already
    exists", and otherwise the user is created; for any payload exactly one
    of success, username conflict, e-mail conflict and validation error is
    the outcome. *)
Theorem signup_conflict_precedence `{EmailLibs} (db : Db)
        (data : gmap string json) (v : Schema.UserData) :
  passes_validation data v ->
  let name := Security.sanitize_input (Schema.v_username v) in
  let addr := Schema.v_email v in
  (username_taken db name ->
   Auth.signup db data = (username_conflict, db))
  /\ (~ username_taken db name -> email_taken db addr ->
      Auth.signup db data = (email_conflict, db))
  /\ (~ username_taken db name -> ~ email_taken db addr ->
      let new_user :=
        {| user_id := Query.next_id (map user_id (users db)); username := name;
           email := addr; password_hash := Hashed (Schema.v_password v) |} in
      Auth.signup db data =
      (jsonify [("message", PStr "User created successfully");
                ("user", PDict [("id", PNum (user_id new_user));
                                ("username", PStr name);
                                ("email", PStr addr)])] 201,
       {| users := users db ++ [new_user]; chats := chats db |}))
  /\ (forall db' data',
        let r := fst (Auth.signup db' data') in
        exactly_one_of (status r = 201%Z) (r = username_conflict)
                       (r = email_conflict) (status r = 400%Z)).
Proof.
  intros (Hload & Hemail & Hpw) name addr.
  assert (Hrun : Auth.signup db data =
    if Py.truthy (Query.user_by_username db name) then (username_conflict, db)
    else if Py.truthy (Query.user_by_email db addr) then (email_conflict, db)
    else
      let '(new_user, db') :=
        Query.add_user db name addr (Schema.v_password v) in
      (jsonify [("message", PStr "User created successfully");
                ("user", user_to_dict new_user)] 201, db')).
  { unfold Auth.signup. rewrite Hload.
    destruct (Security.validate_email (Schema.v_email v)) as [ok msg].
    simpl in Hemail. subst ok. simpl.
    destruct (Security.validate_password (Schema.v_password v)) as [ok pmsg].
    simpl in Hpw. subst ok. reflexivity. }
  repeat split.
  - intros Hu. apply by_username_truthy in Hu. now rewrite Hrun, Hu.
  - intros Hu He. rewrite Hrun.
    rewrite (not_true_false _ (fun E => Hu (proj1 (by_username_truthy _ _) E))).
    apply by_email_truthy in He. now rewrite He.
  - intros Hu He. rewrite Hrun.
    rewrite (not_true_false _ (fun E => Hu (proj1 (by_username_truthy _ _) E))).
    rewrite (not_true_false _ (fun E => He (proj1 (by_email_truthy _ _) E))).
    reflexivity.
  - intros db' data'. apply signup_outcomes.
Qed.

Lemma signup_conflict_precedence_witness :
  Auth.signup (H := Sample.email_libs) Sample.db_one_user
    (Sample.signup_body "testuser" "test@example.com" "Test@123") =
    (username_conflict, Sample.db_one_user)
  /\ Auth.signup (H := Sample.email_libs) Sample.db_one_user
       (Sample.signup_body "other" "test@example.com" "Test@123") =
     (email_conflict, Sample.db_one_user).
Proof.
  assert (Htaken : username_taken Sample.db_one_user
                     (Security.sanitize_input "testuser")).
  { exists Sample.testuser. split; [left; reflexivity|].
    vm_compute. reflexivity. }
  assert (Hfree : ~ username_taken Sample.db_one_user
                      (Security.sanitize_input "other")).
  { intros (u & [<-|[]] & E). vm_compute in E. discriminate. }
  assert (Hmail : email_taken Sample.db_one_user "test@example.com").
  { exists Sample.testuser. split; [left|]; reflexivity. }
  split.
  - refine (proj1 (signup_conflict_precedence (H := Sample.email_libs)
                     Sample.db_one_user
                     (Sample.signup_body "testuser" "test@example.com" "Test@123")
                     {| Schema.v_username := "testuser";
                        Schema.v_email := "test@example.com";
                        Schema.v_password := "Test@123" |} _) Htaken).
    repeat split; vm_compute; reflexivity.
  - refine (proj1 (proj2 (signup_conflict_precedence (H := Sample.email_libs)
                     Sample.db_one_user
                     (Sample.signup_body "other" "test@example.com" "Test@123")
                     {| Schema.v_username := "other";
                        Schema.v_email := "test@example.com";
                        Schema.v_password := "Test@123" |} _)) Hfree Hmail).
    repeat split; vm_compute; reflexivity.
Defined.

(** ** Login *)

Lemma login_unknown_user db data :
  (forall u, In u (users db) -> username u <> login_name data) ->
  Auth.login db data = invalid_credentials.
Proof.
  intros Habsent. unfold Auth.login, Query.user_by_username.
  fold (login_name data).
  rewrite truthy_find_false; [reflexivity|].
  intros u Hu. apply String.eqb_neq. now apply Habsent.
Qed.

Lemma login_wrong_password db data :
  (forall u, In u (users db) -> username u = login_name data ->
             check_password u (login_password data) = false) ->
  Auth.login db data = invalid_credentials.
Proof.
  intros Hwrong. unfold Auth.login.
  fold (login_name data) (login_password data).
  destruct (Query.user_by_username db (login_name data)) as [u|] eqn:Hfind;
    [|reflexivity].
  apply find_some_in in Hfind as [Hin Hname].
  apply String.eqb_eq in Hname.
  now rewrite (Hwrong u Hin Hname).
Qed.

(** C6: a login attempt with a username that no stored user has and a login
    attempt with the username of a stored user but a password that does not
    match get the very same response, status 401 with the body
    [{"error": "Invalid credentials"}]. *)
Theorem login_failures_indistinguishable (db : Db)
        (unknown wrong : gmap string string) :
  (forall u, In u (users db) -> username u <> login_name unknown) ->
  username_taken db (login_name wrong) ->
  (forall u, In u (users db) -> username u = login_name wrong ->
             check_password u (login_password wrong) = false) ->
  Auth.login db unknown = jsonify [("error", PStr "Invalid credentials")] 401
  /\ Auth.login db wrong = jsonify [("error", PStr "Invalid credentials")] 401
  /\ Auth.login db unknown = Auth.login db wrong.
Proof.
  intros Habsent _ Hwrong.
  rewrite (login_unknown_user _ _ Habsent), (login_wrong_password _ _ Hwrong).
  repeat split.
Qed.

Lemma login_failures_indistinguishable_witness :
  Auth.login Sample.db_one_user
    {[ "username" := "nobody"; "password" := "Test@123" ]} =
    jsonify [("error", PStr "Invalid credentials")] 401
  /\ Auth.login Sample.db_one_user
       {[ "username" := "testuser"; "password" := "WrongPassword" ]} =
     jsonify [("error", PStr "Invalid credentials")] 401
  /\ Auth.login Sample.db_one_user
       {[ "username" := "nobody"; "password" := "Test@123" ]} =
     Auth.login Sample.db_one_user
       {[ "username" := "testuser"; "password" := "WrongPassword" ]}.
Proof.
  apply login_failures_indistinguishable.
  - intros u [<-|[]] E. vm_compute in E. discriminate.
  - exists Sample.testuser. split; [left|vm_compute]; reflexivity.
  - intros u [<-|[]] _. vm_compute. reflexivity.
Defined.

(** A login with the password of the account found under the username
    succeeds, and both tokens it returns carry the decimal string of the
    account's id as subject. *)
Lemma login_issues_tokens (db : Db) (data : gmap string string) (u : User) :
  Query.user_by_username db (login_name data) = Some u ->
  check_password u (login_password data) = true ->
  Auth.login db data =
  jsonify [("access_token", PToken {| typ := Access; sub := Py.str (user_id u) |});
           ("refresh_token", PToken {| typ := Refresh; sub := Py.str (user_id u) |});
           ("user", user_to_dict u)] 200.
Proof.
  intros Hfind Hcheck. unfold Auth.login.
  fold (login_name data) (login_password data).
  now rewrite Hfind, Hcheck.
Qed.

(** ** What signup stores *)

Lemma load_str_value data name valid s :
  Schema.load_str data name valid = Ok s ->
  data !! name = Some (JStr s) /\ valid s = true.
Proof.
  unfold Schema.load_str.
  destruct (data !! name) as [[| | |t|]|]; try discriminate.
  destruct (valid t) eqn:Hv; [|discriminate].
  now intros [= ->].
Qed.

Lemma user_schema_load_fields `{EmailLibs} data v :
  Schema.user_schema_load data = Ok v ->
  data !! "username" = Some (JStr (Schema.v_username v))
  /\ data !! "email" = Some (JStr (Schema.v_email v))
  /\ data !! "password" = Some (JStr (Schema.v_password v))
  /\ (3 <= String.length (Schema.v_username v) <= 50)%nat.
Proof.
  unfold Schema.user_schema_load.
  destruct (Schema.load_str data "username" _) as [u|] eqn:Hu;
    [|discriminate].
  destruct (Schema.load_str data "email" _) as [e|] eqn:He; [|discriminate].
  destruct (Schema.load_str data "password" _) as [p|] eqn:Hp; [|discriminate].
  destruct (Schema.unknown_fields _ data); [|discriminate].
  intros [= <-]. simpl.
  apply load_str_value in Hu as [Hu Hlen], He as [He _], Hp as [Hp _].
  unfold Schema.length_between in Hlen.
  apply andb_prop in Hlen as [Hlo Hhi].
  apply Nat.leb_le in Hlo, Hhi. auto.
Qed.

(** Whenever signup creates a user, the e-mail it stores and returns is the
    string of the request body, whatever [validate_email] returned as the
    normalized address. *)
Lemma signup_stores_submitted_email `{EmailLibs} (db : Db)
      (data : gmap string json) :
  status (fst (Auth.signup db data)) = 201%Z ->
  exists u submitted,
    data !! "email" = Some (JStr submitted)
    /\ email u = submitted
    /\ users (snd (Auth.signup db data)) = (users db ++ [u])%list
    /\ body (fst (Auth.signup db data)) =
       PDict [("message", PStr "User created successfully");
              ("user", user_to_dict u)].
Proof.
  unfold Auth.signup.
  destruct (Schema.user_schema_load data) as [v|err] eqn:Hload;
    [|discriminate].
  destruct (Security.validate_email (Schema.v_email v)) as [[] msg]; simpl;
    [|discriminate].
  destruct (Security.validate_password (Schema.v_password v)) as [[] pmsg];
    simpl; [|discriminate].
  destruct (Py.truthy (Query.user_by_username db _)); [discriminate|].
  destruct (Py.truthy (Query.user_by_email db _)); [discriminate|].
  simpl. intros _.
  destruct (user_schema_load_fields _ _ Hload) as (_ & He & _).
  eexists _, (Schema.v_email v). split; [exact He|].
  split; [|split; reflexivity]. reflexivity.
Qed.

(** C8 does not hold of the code: [validate_email] computes the normalized
    address, but [signup] uses its second result only as an error message.
    The address [Alice@EXAMPLE.COM], whose normalized form is
    [Alice@example.com], is stored and returned as it was sent, and the
    uniqueness check compares unnormalized strings, so the normalized form of
    the same address registers a second account. *)
Theorem signup_keeps_unnormalized_email :
  Security.validate_email (H := Sample.email_libs) "Alice@EXAMPLE.COM" =
    (true, "Alice@example.com")
  /\ Auth.signup (H := Sample.email_libs) empty_db
       (Sample.signup_body "alice" "Alice@EXAMPLE.COM" "Aa1!aaaa") =
     (jsonify [("message", PStr "User created successfully");
               ("user", PDict [("id", PNum 1); ("username", PStr "alice");
                               ("email", PStr "Alice@EXAMPLE.COM")])] 201,
      {| users := [alice]; chats := [] |})
  /\ status (fst (Auth.signup (H := Sample.email_libs)
                    {| users := [alice]; chats := [] |}
                    (Sample.signup_body "alice2" "Alice@example.com" "Aa1!aaaa")))
     = 201%Z.
Proof. repeat split; vm_compute; reflexivity. Qed.

(** ** Stores the handlers can produce *)

Section Invariants.

Context `{EL : EmailLibs} `{LC : LlamaCloud} (config : gmap string string).

Lemma validate_password_length p :
  fst (Security.validate_password p) = true -> (8 <= String.length p)%nat.
Proof.
  unfold Security.validate_password.
  destruct (Nat.ltb_spec (String.length p) 8); [discriminate|auto].
Qed.

Lemma signup_users db data :
  users (snd (Auth.signup db data)) = users db
  \/ exists u, users (snd (Auth.signup db data)) = (users db ++ [u])%list
               /\ user_id u = Query.next_id (map user_id (users db))
               /\ (8 <= String.length (password_of u))%nat.
Proof.
  unfold Auth.signup.
  destruct (Schema.user_schema_load data) as [v|err]; [|now left].
  destruct (Security.validate_email (Schema.v_email v)) as [[] msg]; simpl;
    [|now left].
  destruct (Security.validate_password (Schema.v_password v)) as [[] pmsg] eqn:Hp;
    simpl; [|now left].
  destruct (Py.truthy (Query.user_by_username db _)); [now left|].
  destruct (Py.truthy (Query.user_by_email db _)); [now left|].
  right. eexists. simpl. repeat split.
  apply validate_password_length. unfold password_of. simpl. now rewrite Hp.
Qed.

Lemma signup_chats db data : chats (snd (Auth.signup db data)) = chats db.
Proof.
  unfold Auth.signup.
  destruct (Schema.user_schema_load data) as [v|err]; [|reflexivity].
  destruct (Security.validate_email (Schema.v_email v)) as [[] msg]; simpl;
    [|reflexivity].
  destruct (Security.validate_password (Schema.v_password v)) as [[] pmsg];
    simpl; [|reflexivity].
  destruct (Py.truthy (Query.user_by_username db _)); [reflexivity|].
  destruct (Py.truthy (Query.user_by_email db _)); reflexivity.
Qed.

Lemma ask_question_store db now identity data :
  users (snd (Chat.ask_question config db now identity data)) = users db
  /\ (chats (snd (Chat.ask_question config db now identity data)) = chats db
      \/ exists c,
          chats (snd (Chat.ask_question config db now identity data)) =
            (chats db ++ [c])%list
          /\ id c = Query.next_id (map id (chats db))).
Proof.
  unfold Chat.ask_question.
  destruct (Schema.question_schema_load data); [|now split; [|left]].
  destruct (Py.int identity); [|now split; [|left]].
  destruct (Query.user_get db _); [|now split; [|left]].
  destruct (LlamaService.get_response config _); [|now split; [|left]].
  simpl. split; [reflexivity|]. right. eexists. split; reflexivity.
Qed.

Lemma next_id_above (ids : list Z) i :
  In i ids -> (i < Query.next_id ids)%Z.
Proof.
  unfold Query.next_id.
  induction ids as [|x ids IH]; simpl; [contradiction|].
  intros [->|Hi]; [lia|]. specialize (IH Hi). lia.
Qed.

Lemma next_id_fresh (ids : list Z) : NoDup ids -> NoDup (ids ++ [Query.next_id ids]).
Proof.
  intros Hnd. apply NoDup_app. split; [exact Hnd|]. split.
  - intros i Hi Hn. apply list_elem_of_singleton in Hn.
    apply list_elem_of_In, next_id_above in Hi. lia.
  - apply NoDup_singleton.
Qed.

(** Every store the handlers produce has unique primary keys and only
    passwords of eight characters or more. *)
Lemma reachable_invariant db :
  reachable config db ->
  NoDup (map user_id (users db))
  /\ NoDup (map id (chats db))
  /\ (forall u, In u (users db) -> (8 <= String.length (password_of u))%nat).
Proof.
  induction 1 as [|db data Hr (IHu & IHc & IHp)
                  |db now identity data Hr (IHu & IHc & IHp)].
  - simpl. repeat split; [constructor|constructor|contradiction].
  - rewrite signup_chats.
    destruct (signup_users db data) as [->|(u & -> & Hid & Hlen)];
      [now repeat split|].
    repeat split; [|exact IHc|].
    + rewrite map_app. simpl. rewrite Hid. now apply next_id_fresh.
    + intros u' [Hu'|[<-|[]]]%in_app_or; auto.
  - destruct (ask_question_store db now identity data)
      as (-> & [->|(c & -> & Hid)]); [now repeat split|].
    repeat split; [exact IHu| |exact IHp].
    rewrite map_app. simpl. rewrite Hid. now apply next_id_fresh.
Qed.

End Invariants.

(** ** Ordering of the chat history *)

Lemma db_one_user_reached :
  Auth.signup (H := Sample.email_libs) empty_db
    (Sample.signup_body "testuser" "test@example.com" "Test@123") =
  (jsonify [("message", PStr "User created successfully");
            ("user", PDict [("id", PNum 1); ("username", PStr "testuser");
                            ("email", PStr "test@example.com")])] 201,
   Sample.db_one_user).
Proof. vm_compute. reflexivity. Qed.


Lemma db_one_user_reachable :
  @reachable Sample.email_libs Sample.answering_cloud ∅ Sample.db_one_user.
Proof.
  pose proof (reachable_signup (H := Sample.email_libs)
                (H0 := Sample.answering_cloud) ∅ empty_db
                (Sample.signup_body "testuser" "test@example.com" "Test@123")
                (reachable_empty ∅)) as Hr.
  now rewrite db_one_user_reached in Hr.
Qed.


Section Ordering.


Lemma insert_row_perm c rows :
  Permutation (Sqlite.insert_row c rows) (c :: rows).
Proof.
  induction rows as [|x rows IH]; simpl; [reflexivity|].
  destruct (timestamp x <=? timestamp c)%Z; [reflexivity|].
  rewrite IH. apply perm_swap.
Qed.

Lemma order_by_rows rows :
  Permutation (Sqlite.order_by_timestamp_desc rows) rows.
Proof.
  induction rows as [|c rows IH]; simpl; [reflexivity|].
  rewrite insert_row_perm. now constructor.
Qed.





Lemma chats_of_spec db uid c :
  In c (Query.chats_of db uid) <-> In c (chats db) /\ chat_user_id c = uid.
Proof.
  unfold Query.chats_of. rewrite filter_In.
  now rewrite Z.eqb_eq.
Qed.



Lemma listing_rows db uid c :
  In c (listing db uid) <-> In c (chats db) /\ chat_user_id c = uid.
Proof.
  rewrite <- chats_of_spec. unfold listing.
  split; intros Hc; apply list_elem_of_In; apply list_elem_of_In in Hc.
  - now rewrite <- order_by_rows.
  - now rewrite order_by_rows.
Qed.

Lemma listing_length db uid :
  List.length (listing db uid) = List.length (Query.chats_of db uid).
Proof. unfold listing. apply Permutation_length, order_by_rows. Qed.

End Ordering.



(** ** Login bodies with a missing field *)

Section MissingField.

Context `{EL : EmailLibs} `{LC : LlamaCloud} (config : gmap string string).

(** A body of string values without [password]: the empty string is
    checked against the hash, and no password that passed signup is
    empty. *)
Lemma login_missing_password db (data : gmap string string) :
  reachable config db ->
  data !! "password" = None ->
  Auth.login db data = invalid_credentials.
Proof.
  intros Hr Hmissing. apply login_wrong_password.
  intros u Hu _. unfold login_password. rewrite Hmissing. simpl.
  destruct (reachable_invariant config db Hr) as (_ & _ & Hlen).
  specialize (Hlen u Hu). unfold check_password, password_of in *.
  destruct (password_hash u) as [p]. destruct p; [simpl in Hlen; lia|reflexivity].
Qed.

(** A body without [username]: the empty string is looked up. *)
Lemma login_missing_username db (data : gmap string string) :
  (forall u, In u (users db) -> username u <> "") ->
  data !! "username" = None ->
  Auth.login db data = invalid_credentials.
Proof.
  intros Hnone Hmissing. apply login_unknown_user.
  unfold login_name. rewrite Hmissing. exact Hnone.
Qed.

(** No login body is answered with 400. *)
Lemma login_status db (data : gmap string string) :
  status (Auth.login db data) = 401%Z \/ status (Auth.login db data) = 200%Z.
Proof.
  unfold Auth.login.
  destruct (Query.user_by_username db _) as [u|]; [|now left].
  destruct (check_password u _); [now right|now left].
Qed.

End MissingField.

(** C10 does not hold of the code in every store that signup can produce.
    The username is sanitized after its length is validated, so the username
    [DROP] passes the schema and is stored as the empty string; a login body
    that omits [username] and carries that account's password is then
    answered with 200 and tokens. *)
Theorem login_without_username_succeeds :
  Auth.signup (H := Sample.email_libs) empty_db
    (Sample.signup_body "DROP" "drop@example.com" "Aa1!aaaa") =
    (jsonify [("message", PStr "User created successfully");
              ("user", PDict [("id", PNum 1); ("username", PStr "");
                              ("email", PStr "drop@example.com")])] 201,
     {| users := [drop_user]; chats := [] |})
  /\ ({[ "password" := "Aa1!aaaa" ]} : gmap string string) !! "username" = None
  /\ Auth.login {| users := [drop_user]; chats := [] |}
       {[ "password" := "Aa1!aaaa" ]} =
     jsonify [("access_token", PToken {| typ := Access; sub := "1" |});
              ("refresh_token", PToken {| typ := Refresh; sub := "1" |});
              ("user", PDict [("id", PNum 1); ("username", PStr "");
                              ("email", PStr "drop@example.com")])] 200.
Proof. repeat split; vm_compute; reflexivity. Qed.

(** ** The question that is stored and echoed *)

(** For a request that passes the schema, from an existing user,
    [ask_question] answers 200; the question it returns and the question of
    the new ledger entry are both [sanitize_input] of the submitted one. *)
Lemma ask_question_echo `{C : LlamaCloud} (config : gmap string string)
      (db : Db) (now uid : Z) (data : gmap string json) (q : string)
      (user : User) :
  Schema.question_schema_load data = Ok q ->
  Query.user_get db uid = Some user ->
  exists answer,
    LlamaService.get_response config (Security.sanitize_input q) = Ok answer
    /\ Chat.ask_question config db now (Py.str uid) data =
       (jsonify [("question", PStr (Security.sanitize_input q));
                 ("response", PStr answer);
                 ("chat_id", PNum (Query.next_id (map id (chats db))))] 200,
        {| users := users db;
           chats := chats db ++
             [ {| id := Query.next_id (map id (chats db));
                  chat_user_id := user_id user;
                  question := Security.sanitize_input q;
                  response_text := answer;
                  timestamp := now |} ] |}).
Proof.
  intros Hload Huser. eexists. split; [apply get_response_returns|].
  unfold Chat.ask_question.
  rewrite Hload, int_str, Huser, get_response_returns. reflexivity.
Qed.

Lemma question_schema_load_value data q :
  Schema.question_schema_load data = Ok q -> data !! "question" = Some (JStr q).
Proof.
  unfold Schema.question_schema_load.
  destruct (Schema.load_str data "question" _) as [s|] eqn:Hs; [|discriminate].
  destruct (Schema.unknown_fields _ data); [|discriminate].
  intros [= <-]. now apply load_str_value in Hs as [Hs _].
Qed.

(** What the four substitutions delete, on samples. *)
Lemma sanitize_input_samples :
  Security.sanitize_input "What makes a good leader?" = "What makes a good leader?"
  /\ Security.sanitize_input "<script>alert(1)</script>Hi <b>there</b>" = "Hi there"
  /\ Security.sanitize_input "alter create delete drop exec execute insert select update"
     = "        "
  /\ Security.sanitize_input "x OR a=b AND c = d" = "x "
  /\ Security.sanitize_input "selection of updates" = "selection of updates".
Proof. repeat split; vm_compute; reflexivity. Qed.

(** C9 does not hold of the code for every question: the tag pattern is
    applied without [re.DOTALL], so a tag that contains a line feed is not
    deleted.  [sanitize_input] returns such a question unchanged, and
    [ask_question] stores and echoes it with the tag in it. *)
Theorem ask_question_keeps_multiline_tag :
  Security.sanitize_input multiline_tag = multiline_tag
  /\ contains_tag (Security.sanitize_input multiline_tag) = true
  /\ Chat.ask_question (H := Sample.answering_cloud) ∅ Sample.db_one_user 100 "1"
       (Sample.question_body multiline_tag) =
     (jsonify [("question", PStr multiline_tag); ("response", PStr "R");
               ("chat_id", PNum 1)] 200,
      {| users := [Sample.testuser];
         chats := [ {| id := 1; chat_user_id := 1; question := multiline_tag;
                       response_text := "R"; timestamp := 100 |} ] |}).
Proof. repeat split; vm_compute; reflexivity. Qed.

(** * Further properties of the code *)

(** ** [sanitize_input] only deletes *)

Section Substitution.

Context (m : bool -> string -> option nat).

Lemma sub_empty_sublist prev_word skip s :
  sublist (chars (Re.sub_empty m prev_word skip s)) (chars s).
Proof.
  revert prev_word skip.
  induction s as [|c s IH]; intros prev_word skip; simpl; [constructor|].
  destruct skip as [|k].
  - destruct (m prev_word (String c s)) as [[|n]|]; simpl.
    + apply sublist_skip, IH.
    + apply sublist_cons, IH.
    + apply sublist_skip, IH.
  - apply sublist_cons, IH.
Qed.

End Substitution.

Lemma chars_length s : List.length (chars s) = String.length s.
Proof. induction s; simpl; auto. Qed.

(** [sanitize_input] never inserts, replaces or reorders a character: its
    result is the input with some characters deleted, and so is never
    longer than the input. *)
Theorem sanitize_input_only_deletes (s : string) :
  sublist (chars (Security.sanitize_input s)) (chars s)
  /\ (String.length (Security.sanitize_input s) <= String.length s)%nat.
Proof.
  assert (Hsub : sublist (chars (Security.sanitize_input s)) (chars s)).
  { unfold Security.sanitize_input.
    destruct (Py.falsy s); [reflexivity|].
    unfold Security.remove_bool_equalities, Security.remove_keywords,
      Security.remove_tags, Security.remove_scripts.
    etrans; [apply sub_empty_sublist|].
    etrans; [apply sub_empty_sublist|].
    etrans; [apply sub_empty_sublist|].
    apply sub_empty_sublist. }
  split; [exact Hsub|].
  rewrite <- !chars_length. now apply sublist_length.
Qed.

(** ** The tag substitution *)

Lemma match_tag_positive w s n : Re.match_tag w s = Some n -> (2 <= n)%nat.
Proof.
  unfold Re.match_tag. destruct s as [|c s]; [discriminate|].
  destruct (Ascii.eqb_spec c "<") as [->|Hc].
  - destruct (Re.tag_end s); simpl; [|discriminate]. intros [= <-]. lia.
  - destruct c as [[] [] [] [] [] [] [] []]; try discriminate.
    now elim Hc.
Qed.

Lemma match_tag_cons w c s :
  Re.match_tag w (String c s) =
  if Ascii.eqb c "<" then option_map (fun j => j + 2) (Re.tag_end s) else None.
Proof.
  destruct (Ascii.eqb_spec c "<") as [->|Hc]; [reflexivity|].
  destruct c as [[] [] [] [] [] [] [] []]; try reflexivity.
  now elim Hc.
Qed.

(** Where no closing bracket ends a tag on the line, none does after the
    substitution either. *)
Lemma tag_end_none_preserved w s :
  Re.tag_end s = None ->
  Re.tag_end (Re.sub_empty Re.match_tag w 0 s) = None.
Proof.
  revert w. induction s as [|c s IH]; intros w Hend; [reflexivity|].
  cbn [Re.sub_empty]. rewrite match_tag_cons.
  cbn [Re.tag_end] in Hend.
  destruct (Ascii.eqb c ">") eqn:Hgt; [discriminate|].
  destruct (Ascii.eqb_spec c "010") as [->|Hnl%Ascii.eqb_neq].
  - reflexivity.
  - destruct (Re.tag_end s) as [j|] eqn:E; [discriminate|].
    assert (Hout : Re.tag_end (String c (Re.sub_empty Re.match_tag (Py.is_word c) 0 s))
                   = None).
    { cbn [Re.tag_end]. now rewrite Hgt, Hnl, IH. }
    destruct (Ascii.eqb c "<"); exact Hout.
Qed.

Lemma sub_empty_tag_free w skip s :
  has_line_tag (Re.sub_empty Re.match_tag w skip s) = false.
Proof.
  revert w skip. induction s as [|c s IH]; intros w skip; [reflexivity|].
  cbn [Re.sub_empty].
  destruct skip as [|k]; [|apply IH].
  destruct (Re.match_tag w (String c s)) as [[|n]|] eqn:Hm.
  - apply match_tag_positive in Hm. lia.
  - apply IH.
  - cbn [has_line_tag]. rewrite IH, orb_false_r.
    rewrite match_tag_cons in Hm |- *.
    destruct (Ascii.eqb c "<"); [|reflexivity].
    destruct (Re.tag_end s) eqn:E; [discriminate|].
    now rewrite tag_end_none_preserved.
Qed.

Lemma sub_empty_tag_free_id w s :
  has_line_tag s = false -> Re.sub_empty Re.match_tag w 0 s = s.
Proof.
  revert w. induction s as [|c s IH]; intros w; [reflexivity|].
  cbn [has_line_tag Re.sub_empty].
  intros [Hm Hs]%orb_false_elim.
  rewrite match_tag_cons in Hm |- *.
  destruct (Ascii.eqb c "<").
  - destruct (Re.tag_end s); [discriminate|]. cbn [option_map]. now rewrite IH.
  - now rewrite IH.
Qed.

(** After the tag substitution of [sanitize_input] the tag pattern matches
    nowhere in the text, and applying the substitution again changes
    nothing. *)
Theorem remove_tags_leaves_no_line_tag (s : string) :
  has_line_tag (Security.remove_tags s) = false
  /\ Security.remove_tags (Security.remove_tags s) = Security.remove_tags s.
Proof.
  unfold Security.remove_tags. split.
  - apply sub_empty_tag_free.
  - apply sub_empty_tag_free_id, sub_empty_tag_free.
Qed.

(** ** The password policy *)

Lemma search_has_char f s : Security.search f s = true <-> has_char f s.
Proof.
  unfold has_char. induction s as [|c s IH]; simpl.
  - split; [discriminate|]. now intros (c & [] & _).
  - rewrite orb_true_iff, IH. split.
    + intros [Hc|(x & Hx & Hfx)]; [exists c; auto|exists x; auto].
    + intros (x & [->|Hx] & Hfx); [now left|right; exists x; auto].
Qed.

(** [validate_password] accepts a password exactly when it has at least
    eight characters and at least one digit, one upper-case letter, one
    lower-case letter and one character of the punctuation class. *)
Theorem validate_password_accepts (password : string) :
  fst (Security.validate_password password) = true <->
  (8 <= String.length password)%nat
  /\ has_char Py.is_digit password
  /\ has_char Py.is_upper password
  /\ has_char Py.is_lower password
  /\ has_char Security.is_special password.
Proof.
  rewrite <- !search_has_char. unfold Security.validate_password.
  destruct (Nat.ltb_spec (String.length password) 8) as [Hlt|Hge]; simpl.
  { split; [discriminate|]. intros (H & _). lia. }
  destruct (Security.search Py.is_digit password); simpl;
    [|split; [discriminate|now intros (_ & ? & _)]].
  destruct (Security.search Py.is_upper password); simpl;
    [|split; [discriminate|now intros (_ & _ & ? & _)]].
  destruct (Security.search Py.is_lower password); simpl;
    [|split; [discriminate|now intros (_ & _ & _ & ? & _)]].
  destruct (Security.search Security.is_special password); simpl;
    [|split; [discriminate|now intros (_ & _ & _ & _ & ?)]].
  split; auto.
Qed.

(** ** What signup does to the store *)

Section SignupEffect.

Context `{EL : EmailLibs}.

(** The user row signup creates from validated data. *)
Let created (db : Db) (v : Schema.UserData) : User :=
  {| user_id := Query.next_id (map user_id (users db));
     username := Security.sanitize_input (Schema.v_username v);
     email := Schema.v_email v;
     password_hash := Hashed (Schema.v_password v) |}.

Lemma signup_cases (db : Db) (data : gmap string json) :
  (snd (Auth.signup db data) = db
   /\ (status (fst (Auth.signup db data)) = 400%Z
       \/ status (fst (Auth.signup db data)) = 409%Z))
  \/ exists v,
      passes_validation data v
      /\ Query.user_by_username db (username (created db v)) = None
      /\ Query.user_by_email db (email (created db v)) = None
      /\ Auth.signup db data =
         (jsonify [("message", PStr "User created successfully");
                   ("user", user_to_dict (created db v))] 201,
          {| users := users db ++ [created db v]; chats := chats db |}).
Proof.
  unfold Auth.signup, passes_validation.
  destruct (Schema.user_schema_load data) as [v|err] eqn:Hload;
    [|left; split; [reflexivity|now left]].
  destruct (Security.validate_email (Schema.v_email v)) as [[] msg] eqn:He;
    simpl; [|left; split; [reflexivity|now left]].
  destruct (Security.validate_password (Schema.v_password v)) as [[] pmsg] eqn:Hp;
    simpl; [|left; split; [reflexivity|now left]].
  destruct (Query.user_by_username db _) eqn:Hu; simpl;
    [left; split; [reflexivity|now right]|].
  destruct (Query.user_by_email db _) eqn:Hm; simpl;
    [left; split; [reflexivity|now right]|].
  right. exists v. rewrite He, Hp. simpl. repeat split; assumption.
Qed.

Lemma signup_valid_run (db : Db) (data : gmap string json) (v : Schema.UserData) :
  passes_validation data v ->
  Auth.signup db data =
  if Py.truthy (Query.user_by_username db
                  (Security.sanitize_input (Schema.v_username v)))
  then (username_conflict, db)
  else if Py.truthy (Query.user_by_email db (Schema.v_email v))
  then (email_conflict, db)
  else (jsonify [("message", PStr "User created successfully");
                 ("user", user_to_dict (created db v))] 201,
        {| users := users db ++ [created db v]; chats := chats db |}).
Proof.
  intros (Hload & Hemail & Hpw). unfold Auth.signup. rewrite Hload.
  destruct (Security.validate_email (Schema.v_email v)) as [ok msg].
  simpl in Hemail. subst ok. simpl.
  destruct (Security.validate_password (Schema.v_password v)) as [ok pmsg].
  simpl in Hpw. subst ok. reflexivity.
Qed.

(** A signup that is not answered with 201 leaves the store as it was; one
    that is answered with 201 appends exactly one user, whose id is one more
    than the largest id in use and whose data is returned without the
    password, and never touches the chat table. *)
Theorem signup_store_effect (db : Db) (data : gmap string json) :
  let r := fst (Auth.signup db data) in
  let db' := snd (Auth.signup db data) in
  chats db' = chats db
  /\ (status r <> 201%Z -> db' = db)
  /\ (status r = 201%Z ->
      exists u,
        users db' = (users db ++ [u])%list
        /\ user_id u = Query.next_id (map user_id (users db))
        /\ field "user" r =
           Some (PDict [("id", PNum (user_id u)); ("username", PStr (username u));
                        ("email", PStr (email u))])).
Proof.
  cbv zeta.
  destruct (signup_cases db data) as [(Hdb & Hst)|(v & _ & _ & _ & Hrun)].
  - rewrite Hdb. split; [reflexivity|]. split; [reflexivity|].
    intros H201. destruct Hst as [Hst|Hst]; rewrite Hst in H201; discriminate.
  - rewrite Hrun. simpl. split; [reflexivity|]. split; [intros H; now elim H|].
    intros _. exists (created db v). repeat split.
Qed.

End SignupEffect.

(** ** Uniqueness in the stores the handlers produce *)


Lemma find_app_none {A} (f : A -> bool) (l l' : list A) :
  List.find f l = None -> List.find f (l ++ l') = List.find f l'.
Proof.
  induction l as [|y l IH]; simpl; [reflexivity|].
  destruct (f y); [discriminate|]. exact IH.
Qed.






(** ** Key assignment *)






(** ** Login decides by username and password *)

Lemma find_by_username (rows : list User) (u : User) :
  NoDup (map username rows) -> In u rows ->
  List.find (fun x => String.eqb (username x) (username u)) rows = Some u.
Proof.
  induction rows as [|x rows IH]; simpl; intros Hnd Hin; [contradiction|].
  apply NoDup_cons in Hnd as [Hx Hnd].
  destruct Hin as [->|Hin].
  - now rewrite String.eqb_refl.
  - destruct (String.eqb_spec (username x) (username u)) as [E|_].
    + exfalso. apply Hx. rewrite E. apply list_elem_of_In, in_map, Hin.
    + now apply IH.
Qed.

(** Where usernames are unique, login answers 200 exactly when some stored
    account has the looked-up username and its password check accepts the
    supplied password; it then returns that account. *)
Theorem login_succeeds_iff (db : Db) (data : gmap string string) :
  NoDup (map username (users db)) ->
  (status (Auth.login db data) = 200%Z <->
   exists u, In u (users db) /\ username u = login_name data
             /\ check_password u (login_password data) = true)
  /\ (forall u, In u (users db) -> username u = login_name data ->
                check_password u (login_password data) = true ->
                field "user" (Auth.login db data) = Some (user_to_dict u)).
Proof.
  intros Hnd.
  assert (Hok : forall u, In u (users db) -> username u = login_name data ->
                          check_password u (login_password data) = true ->
                          Auth.login db data =
                          jsonify [("access_token", PToken (Jwt.create_access_token (user_id u)));
                                   ("refresh_token", PToken (Jwt.create_refresh_token (user_id u)));
                                   ("user", user_to_dict u)] 200).
  { intros u Hin Hname Hcheck. apply login_issues_tokens; [|exact Hcheck].
    unfold Query.user_by_username. rewrite <- Hname.
    now apply find_by_username. }
  split; [split|].
  - unfold Auth.login. fold (login_name data) (login_password data).
    destruct (Query.user_by_username db (login_name data)) as [u|] eqn:Hfind;
      [|discriminate].
    apply find_some_in in Hfind as [Hin Hname%String.eqb_eq].
    destruct (check_password u (login_password data)) eqn:Hc; [|discriminate].
    intros _. exists u. auto.
  - intros (u & Hin & Hname & Hcheck). now rewrite (Hok u Hin Hname Hcheck).
  - intros u Hin Hname Hcheck. now rewrite (Hok u Hin Hname Hcheck).
Qed.

Lemma login_succeeds_iff_witness :
  (status (Auth.login Sample.db_one_user
             {[ "username" := "testuser"; "password" := "Test@123" ]}) = 200%Z <->
   exists u, In u (users Sample.db_one_user)
             /\ username u =
                login_name {[ "username" := "testuser"; "password" := "Test@123" ]}
             /\ check_password u
                  (login_password {[ "username" := "testuser"; "password" := "Test@123" ]})
                = true)
  /\ (forall u, In u (users Sample.db_one_user) ->
        username u =
          login_name {[ "username" := "testuser"; "password" := "Test@123" ]} ->
        check_password u
          (login_password {[ "username" := "testuser"; "password" := "Test@123" ]})
          = true ->
        field "user" (Auth.login Sample.db_one_user
                        {[ "username" := "testuser"; "password" := "Test@123" ]})
        = Some (user_to_dict u)).
Proof.
  apply login_succeeds_iff. simpl. apply NoDup_singleton.
Defined.

(** ** Signup, then login *)

Lemma login_body_fields (u p : string) :
  login_name {[ "username" := u; "password" := p ]} = Security.sanitize_input u
  /\ login_password {[ "username" := u; "password" := p ]} = p.
Proof.
  unfold login_name, login_password. split.
  - now rewrite lookup_insert_eq.
  - rewrite lookup_insert_ne by discriminate. now rewrite lookup_singleton_eq.
Qed.

(** After a signup answered with 201, a login with the username and the
    password that were submitted succeeds and returns the new account, with
    tokens whose subject is its id. *)
Theorem signup_then_login `{EL : EmailLibs} (db : Db)
        (data : gmap string json) (v : Schema.UserData) :
  Schema.user_schema_load data = Ok v ->
  status (fst (Auth.signup db data)) = 201%Z ->
  let uid := Query.next_id (map user_id (users db)) in
  Auth.login (snd (Auth.signup db data))
    {[ "username" := Schema.v_username v; "password" := Schema.v_password v ]} =
  jsonify [("access_token", PToken {| typ := Access; sub := Py.str uid |});
           ("refresh_token", PToken {| typ := Refresh; sub := Py.str uid |});
           ("user", PDict [("id", PNum uid);
                           ("username",
                            PStr (Security.sanitize_input (Schema.v_username v)));
                           ("email", PStr (Schema.v_email v))])] 200.
Proof.
  intros Hload H201 uid.
  destruct (signup_cases db data) as [(_ & [Hst|Hst])|(v' & (Hload' & _) & Hu & _ & Hrun)];
    try (rewrite Hst in H201; discriminate).
  rewrite Hload in Hload'. injection Hload' as <-.
  rewrite Hrun. simpl snd.
  destruct (login_body_fields (Schema.v_username v) (Schema.v_password v))
    as [Hname Hpw].
  rewrite (login_issues_tokens _ _
             {| user_id := uid;
                username := Security.sanitize_input (Schema.v_username v);
                email := Schema.v_email v;
                password_hash := Hashed (Schema.v_password v) |}).
  - reflexivity.
  - rewrite Hname. unfold Query.user_by_username in *. simpl users.
    rewrite (find_app_none _ _ _ Hu). simpl. now rewrite String.eqb_refl.
  - rewrite Hpw. unfold check_password. simpl. apply String.eqb_refl.
Qed.

Lemma signup_then_login_witness :
  Auth.login
    (snd (Auth.signup (H := Sample.email_libs) empty_db
            (Sample.signup_body "testuser" "test@example.com" "Test@123")))
    {[ "username" := "testuser"; "password" := "Test@123" ]} =
  jsonify [("access_token", PToken {| typ := Access; sub := Py.str 1 |});
           ("refresh_token", PToken {| typ := Refresh; sub := Py.str 1 |});
           ("user", PDict [("id", PNum 1);
                           ("username", PStr (Security.sanitize_input "testuser"));
                           ("email", PStr "test@example.com")])] 200.
Proof.
  refine (signup_then_login (EL := Sample.email_libs) empty_db
            (Sample.signup_body "testuser" "test@example.com" "Test@123")
            {| Schema.v_username := "testuser";
               Schema.v_email := "test@example.com";
               Schema.v_password := "Test@123" |} _ _);
    vm_compute; reflexivity.
Defined.

(** After a signup answered with 201, every further signup that passes
    validation and whose username is stored in the same form is answered with
    409 "Username already exists", whatever its e-mail, and changes
    nothing. *)
Theorem signup_again_conflicts `{EL : EmailLibs} (db : Db)
        (data data' : gmap string json) (v v' : Schema.UserData) :
  Schema.user_schema_load data = Ok v ->
  status (fst (Auth.signup db data)) = 201%Z ->
  passes_validation data' v' ->
  Security.sanitize_input (Schema.v_username v') =
    Security.sanitize_input (Schema.v_username v) ->
  Auth.signup (snd (Auth.signup db data)) data' =
  (jsonify [("error", PStr "Username already exists")] 409,
   snd (Auth.signup db data)).
Proof.
  intros Hload H201 Hvalid Hsame.
  destruct (signup_cases db data) as [(_ & [Hst|Hst])|(w & (Hload' & _) & _ & _ & Hrun)];
    try (rewrite Hst in H201; discriminate).
  rewrite Hload in Hload'. injection Hload' as <-.
  rewrite Hrun. simpl snd.
  match goal with |- Auth.signup ?d _ = _ => set (db' := d) end.
  rewrite (signup_valid_run _ _ _ Hvalid).
  assert (Htaken : Py.truthy (Query.user_by_username db'
                      (Security.sanitize_input (Schema.v_username v'))) = true).
  { apply by_username_truthy. eexists. split.
    - simpl. apply in_or_app. right. left. reflexivity.
    - simpl. now rewrite Hsame. }
  now rewrite Htaken.
Qed.

Lemma signup_again_conflicts_witness :
  Auth.signup (H := Sample.email_libs)
    (snd (Auth.signup (H := Sample.email_libs) empty_db
            (Sample.signup_body "testuser" "test1@example.com" "Test@123")))
    (Sample.signup_body "<b>testuser</b>" "test2@example.com" "Test@123") =
  (jsonify [("error", PStr "Username already exists")] 409,
   snd (Auth.signup (H := Sample.email_libs) empty_db
          (Sample.signup_body "testuser" "test1@example.com" "Test@123"))).
Proof.
  refine (signup_again_conflicts (EL := Sample.email_libs) empty_db
            (Sample.signup_body "testuser" "test1@example.com" "Test@123")
            (Sample.signup_body "<b>testuser</b>" "test2@example.com" "Test@123")
            {| Schema.v_username := "testuser";
               Schema.v_email := "test1@example.com";
               Schema.v_password := "Test@123" |}
            {| Schema.v_username := "<b>testuser</b>";
               Schema.v_email := "test2@example.com";
               Schema.v_password := "Test@123" |} _ _ _ _);
    try (vm_compute; reflexivity).
  repeat split; vm_compute; reflexivity.
Defined.

(** ** A session: login, token lookup, /me and /refresh *)

Lemma user_get_present (db : Db) (u : User) :
  NoDup (map user_id (users db)) -> In u (users db) ->
  Query.user_get db (user_id u) = Some u.
Proof. intros Hnd Hin. now apply (find_present user_id). Qed.

Lemma user_get_id (db : Db) (i : Z) (u : User) :
  Query.user_get db i = Some u -> In u (users db) /\ user_id u = i.
Proof.
  intros [Hin Hid]%find_some_in. split; [exact Hin|]. now apply Z.eqb_eq.
Qed.

(** After a login answered with tokens, both tokens resolve through the user
    lookup loader to the account the login returned, GET /me with the access
    token returns that same user object, and POST /refresh with the refresh
    token returns an access token with the same subject. *)
Theorem login_session (db : Db) (data : gmap string string)
        (access refresh : Token) (user : payload) :
  NoDup (map user_id (users db)) ->
  Auth.login db data =
    jsonify [("access_token", PToken access); ("refresh_token", PToken refresh);
             ("user", user)] 200 ->
  exists u,
    In u (users db)
    /\ user = user_to_dict u
    /\ Jwt.user_lookup_callback db access = Some u
    /\ Jwt.user_lookup_callback db refresh = Some u
    /\ Session.get_user db (Jwt.get_jwt_identity access) =
       jsonify [("user", user)] 200
    /\ Session.refresh refresh =
       jsonify [("access_token", PToken {| typ := Access; sub := sub access |})] 200.
Proof.
  intros Hnd. unfold Auth.login.
  destruct (Query.user_by_username db _) as [u|] eqn:Hfind; [|discriminate].
  destruct (check_password u _); [|discriminate]. simpl.
  intros [= <- <- <-].
  apply find_some_in in Hfind as [Hin _].
  exists u. split; [exact Hin|]. split; [reflexivity|].
  unfold Jwt.user_lookup_callback, Session.get_user, Session.refresh,
    Jwt.get_jwt_identity. simpl.
  rewrite int_str, (user_get_present db u Hnd Hin). repeat split.
Qed.

Lemma login_session_witness :
  exists u,
    In u (users Sample.db_one_user)
    /\ user_to_dict Sample.testuser = user_to_dict u
    /\ Jwt.user_lookup_callback Sample.db_one_user
         {| typ := Access; sub := "1" |} = Some u
    /\ Jwt.user_lookup_callback Sample.db_one_user
         {| typ := Refresh; sub := "1" |} = Some u
    /\ Session.get_user Sample.db_one_user
         (Jwt.get_jwt_identity {| typ := Access; sub := "1" |}) =
       jsonify [("user", user_to_dict Sample.testuser)] 200
    /\ Session.refresh {| typ := Refresh; sub := "1" |} =
       jsonify [("access_token", PToken {| typ := Access; sub := "1" |})] 200.
Proof.
  apply (login_session Sample.db_one_user
           {[ "username" := "testuser"; "password" := "Test@123" ]}).
  - simpl. apply NoDup_singleton.
  - vm_compute. reflexivity.
Defined.

(** GET /me answers 401, from the user lookup of [@jwt_required()], when no
    account has the id of the token, and 200 with the id, username and
    e-mail of the account that has it; the answer never carries the password
    hash.  Whatever a request presents, the status is 200, 401 or 500: the
    404 of the view is behind the token check and is never given. *)
Theorem get_user_by_token (db : Db) (uid : Z) :
  NoDup (map user_id (users db)) ->
  Sqlite.bindable uid = true ->
  ((forall u, In u (users db) -> user_id u <> uid) ->
   status (Route.get_user db (as_user uid)) = 401%Z)
  /\ (forall u, In u (users db) -> user_id u = uid ->
      Route.get_user db (as_user uid) =
      jsonify [("user", PDict [("id", PNum uid); ("username", PStr (username u));
                               ("email", PStr (email u))])] 200)
  /\ (forall auth,
        let r := Route.get_user db auth in
        status r = 200%Z \/ status r = 401%Z \/ status r = 500%Z).
Proof.
  intros Hnd Hb. split; [|split].
  - intros Habsent. unfold Route.get_user.
    rewrite jwt_required_no_account; [reflexivity|exact Hb|].
    unfold Query.user_get. now rewrite (find_absent user_id _ _ Habsent).
  - intros u Hin <-.
    pose proof (user_get_present db u Hnd Hin) as Hu.
    rewrite route_get_user by (split; [exact Hb|eauto]).
    unfold Session.get_user. now rewrite int_str, Hu.
  - intros auth. cbv zeta. unfold Route.get_user.
    destruct (Guard.jwt_required false db auth) as [t|r] eqn:Hg.
    + apply jwt_required_ok in Hg as (_ & i & u & Hi & _ & Hu & _).
      unfold Session.get_user, Jwt.get_jwt_identity. rewrite Hi, Hu. now left.
    + right. exact (jwt_required_raise _ _ _ _ Hg).
Qed.

Lemma get_user_by_token_witness :
  status (Route.get_user two_user_db (as_user 3)) = 401%Z
  /\ Route.get_user two_user_db (as_user 2) =
     jsonify [("user", PDict [("id", PNum 2); ("username", PStr "bob");
                              ("email", PStr "bob@example.com")])] 200.
Proof.
  assert (Hnd : NoDup (map user_id (users two_user_db))).
  { simpl. apply NoDup_cons. split; [|apply NoDup_singleton].
    apply not_elem_of_cons. split; [discriminate|apply not_elem_of_nil]. }
  split.
  - apply (proj1 (get_user_by_token two_user_db 3 Hnd eq_refl)).
    simpl. intros u [E|[E|[]]]; subst u; simpl; lia.
  - apply (proj1 (proj2 (get_user_by_token two_user_db 2 Hnd eq_refl)) bob);
      simpl; auto.
Defined.

(** ** The two kinds of token *)

(** With the refresh token of a user with an account POST /refresh answers
    200 with an access token of the same subject, which the routes behind an
    access token then let through; the refresh token itself is refused by
    those routes, and an access token by POST /refresh, with the 401 of the
    invalid-token loader. *)
Theorem refresh_needs_refresh_token (db : Db) (uid : Z) :
  account db uid ->
  let refresh_token := Jwt.create_refresh_token uid in
  exists access_token,
    Route.refresh db (Guard.Signed refresh_token) =
      jsonify [("access_token", PToken access_token)] 200
    /\ sub access_token = sub refresh_token
    /\ Guard.jwt_required false db (Guard.Signed access_token) = Ok access_token
    /\ Route.get_user db (Guard.Signed refresh_token) =
       Guard.invalid_token_callback
    /\ Route.refresh db (Guard.Signed access_token) =
       Guard.invalid_token_callback.
Proof.
  intros Ha. cbv zeta. exists (Jwt.create_access_token uid).
  pose proof (jwt_required_account db uid Ha) as Hpass.
  destruct Ha as [Hb [u Hu]].
  split; [|split; [reflexivity|split; [exact Hpass|split; reflexivity]]].
  unfold Route.refresh, Guard.jwt_required, Guard.load_user,
    Guard.lookup_overflows, Jwt.user_lookup_callback, Jwt.create_refresh_token,
    Jwt.user_identity_lookup.
  cbn [typ sub]. now rewrite int_str, Hb, Hu.
Qed.

Lemma refresh_needs_refresh_token_witness :
  let refresh_token := Jwt.create_refresh_token 2 in
  exists access_token,
    Route.refresh two_user_db (Guard.Signed refresh_token) =
      jsonify [("access_token", PToken access_token)] 200
    /\ sub access_token = sub refresh_token
    /\ Guard.jwt_required false two_user_db (Guard.Signed access_token) =
       Ok access_token
    /\ Route.get_user two_user_db (Guard.Signed refresh_token) =
       Guard.invalid_token_callback
    /\ Route.refresh two_user_db (Guard.Signed access_token) =
       Guard.invalid_token_callback.
Proof.
  refine (refresh_needs_refresh_token two_user_db 2 _).
  split; [reflexivity|eexists; reflexivity].
Defined.

(** ** What a question does to the ledger *)

Lemma next_id_positive (ids : list Z) : (0 < Query.next_id ids)%Z.
Proof.
  unfold Query.next_id.
  assert (0 <= fold_right Z.max 0 ids)%Z; [|lia].
  induction ids as [|x ids IH]; simpl; lia.
Qed.

(** The handlers that take a question or read the ledger leave the
    accounts as they are. *)
Lemma account_same_users (db db' : Db) (uid : Z) :
  users db' = users db -> account db uid -> account db' uid.
Proof.
  intros Hu [Hb [u Hget]]. split; [exact Hb|]. exists u.
  unfold Query.user_get in *. now rewrite Hu.
Qed.

Section Ledger.

Context `{C : LlamaCloud} (config : gmap string string).

(** The entry [ask_question] records. *)
Let recorded (db : Db) (now uid : Z) (q : string) : ChatHistory :=
  {| id := Query.next_id (map id (chats db));
     chat_user_id := uid;
     question := Security.sanitize_input q;
     response_text :=
       match LlamaService.get_response_try config (Security.sanitize_input q) with
       | Ok answer => answer
       | Raise _ => LlamaService.fallback
       end;
     timestamp := now |}.

Lemma ask_question_run (db : Db) (now : Z) (identity : string) (uid : Z)
      (data : gmap string json) (q : string) (user : User) :
  Schema.question_schema_load data = Ok q ->
  Py.int identity = Some uid ->
  Query.user_get db uid = Some user ->
  Chat.ask_question config db now identity data =
  (jsonify [("question", PStr (question (recorded db now uid q)));
            ("response", PStr (response_text (recorded db now uid q)));
            ("chat_id", PNum (id (recorded db now uid q)))] 200,
   {| users := users db; chats := chats db ++ [recorded db now uid q] |}).
Proof.
  intros Hload Hi Huser. unfold Chat.ask_question.
  rewrite Hload, Hi, Huser, get_response_returns.
  apply user_get_id in Huser as [_ ->]. reflexivity.
Qed.

(** Whatever a request to POST /ask-question presents, the answer is 200,
    400, 401 or 500; the user table is never changed; unless the answer is
    200 the store is left as it was, and with a 200 one entry is appended,
    under the next id, owned by the account of the token and stamped with
    the clock reading. *)
Theorem ask_question_effect (db : Db) (now : Z) (auth : Guard.bearer)
        (data : gmap string json) :
  let r := fst (Route.ask_question config db now auth data) in
  let db' := snd (Route.ask_question config db now auth data) in
  users db' = users db
  /\ (status r = 200%Z \/ status r = 400%Z \/ status r = 401%Z
      \/ status r = 500%Z)
  /\ (status r <> 200%Z -> db' = db)
  /\ (status r = 200%Z ->
      exists t u c,
        auth = Guard.Signed t
        /\ Jwt.user_lookup_callback db t = Some u
        /\ chats db' = (chats db ++ [c])%list
        /\ id c = Query.next_id (map id (chats db))
        /\ chat_user_id c = user_id u /\ timestamp c = now
        /\ field "chat_id" r = Some (PNum (id c))).
Proof.
  cbv zeta. unfold Route.ask_question.
  destruct (Guard.jwt_required false db auth) as [t|r] eqn:Hg.
  - apply jwt_required_ok in Hg as (-> & uid & u & Hi & _ & Hu & Hcb).
    unfold Jwt.get_jwt_identity.
    destruct (Schema.question_schema_load data) as [q|err] eqn:Hload.
    + rewrite (ask_question_run db now (sub t) uid data q u Hload Hi Hu). simpl.
      split; [reflexivity|]. split; [now left|].
      split; [intros H; now elim H|].
      intros _. exists t, u. eexists. split; [reflexivity|].
      split; [exact Hcb|]. split; [reflexivity|]. split; [reflexivity|].
      apply user_get_id in Hu as [_ ->]. repeat split.
    + unfold Chat.ask_question. rewrite Hload. simpl.
      split; [reflexivity|]. split; [now right; left|].
      split; [reflexivity|discriminate].
  - simpl. split; [reflexivity|].
    destruct (jwt_required_raise _ _ _ _ Hg) as [H|H]; rewrite H.
    + split; [now right; right; left|]. split; [reflexivity|discriminate].
    + split; [now right; right; right|]. split; [reflexivity|discriminate].
Qed.

Lemma chat_get_recorded (db : Db) (c : ChatHistory) :
  id c = Query.next_id (map id (chats db)) ->
  (id c < 2 ^ 63)%Z ->
  Query.chat_get {| users := users db; chats := chats db ++ [c] |} (id c) =
  Ok (Some c).
Proof.
  intros Hid Hrange.
  pose proof (next_id_positive (map id (chats db))) as Hpos.
  rewrite chat_get_in_range by lia. simpl.
  rewrite find_app_none.
  - simpl. now rewrite Z.eqb_refl.
  - apply find_absent. intros r Hr E.
    pose proof (next_id_above (map id (chats db)) (id r) (in_map id _ _ Hr)).
    lia.
Qed.

(** After a question of a user with an account is recorded, under an id the
    store can hold, GET /chat-history/<id> with the returned [chat_id]
    gives the owner 200 with the sanitized question, the response and the
    timestamp that were stored, and gives any other user with an account
    403. *)
Theorem ask_then_get_chat_item (db : Db) (now uid other : Z)
        (data : gmap string json) (q : string) :
  Schema.question_schema_load data = Ok q ->
  account db uid -> account db other ->
  other <> uid ->
  (Query.next_id (map id (chats db)) < 2 ^ 63)%Z ->
  let r := fst (Route.ask_question config db now (as_user uid) data) in
  let db' := snd (Route.ask_question config db now (as_user uid) data) in
  exists (chat_id : N) (response : string),
    r = jsonify [("question", PStr (Security.sanitize_input q));
                 ("response", PStr response);
                 ("chat_id", PNum (Z.of_N chat_id))] 200
    /\ Route.get_chat_item db' (as_user uid) chat_id =
       jsonify [("chat",
                 PDict [("id", PNum (Z.of_N chat_id)); ("user_id", PNum uid);
                        ("question", PStr (Security.sanitize_input q));
                        ("response", PStr response);
                        ("timestamp", PTime now)])] 200
    /\ Route.get_chat_item db' (as_user other) chat_id =
       jsonify [("error",
                 PStr "You do not have permission to view this chat item")] 403.
Proof.
  intros Hload Ha Hb Hother Hrange. cbv zeta.
  destruct Ha as [Hbind [user Huser]].
  rewrite (route_ask_question config db now uid data) by (split; eauto).
  rewrite (ask_question_run db now _ uid data q user Hload (int_str uid) Huser).
  cbn [fst snd].
  set (c := recorded db now uid q).
  set (db' := {| users := users db; chats := chats db ++ [c] |}).
  pose proof (next_id_positive (map id (chats db))) as Hpos.
  exists (Z.to_N (id c)), (response_text c).
  assert (Hc : Z.of_N (Z.to_N (id c)) = id c) by (apply Z2N.id; simpl; lia).
  rewrite Hc. split; [reflexivity|].
  assert (Hget : Query.chat_get db' (id c) = Ok (Some c))
    by (apply chat_get_recorded; [reflexivity|exact Hrange]).
  rewrite !route_get_chat_item, Hc;
    [|now apply (account_same_users db)
     |apply (account_same_users db); [reflexivity|split; eauto]].
  unfold Chat.get_chat_item. rewrite Hget, !int_str.
  cbn [chat_user_id c recorded]. rewrite Z.eqb_refl.
  destruct (Z.eqb_spec uid other); [congruence|]. split; reflexivity.
Qed.

End Ledger.

Lemma ask_then_get_chat_item_witness :
  let r := fst (Route.ask_question (H := Sample.answering_cloud) ∅
                  two_user_db 100 (as_user 1) (Sample.question_body "Q")) in
  let db' := snd (Route.ask_question (H := Sample.answering_cloud) ∅
                    two_user_db 100 (as_user 1) (Sample.question_body "Q")) in
  exists (chat_id : N) (response : string),
    r = jsonify [("question", PStr (Security.sanitize_input "Q"));
                 ("response", PStr response);
                 ("chat_id", PNum (Z.of_N chat_id))] 200
    /\ Route.get_chat_item db' (as_user 1) chat_id =
       jsonify [("chat",
                 PDict [("id", PNum (Z.of_N chat_id)); ("user_id", PNum 1);
                        ("question", PStr (Security.sanitize_input "Q"));
                        ("response", PStr response);
                        ("timestamp", PTime 100)])] 200
    /\ Route.get_chat_item db' (as_user 2) chat_id =
       jsonify [("error",
                 PStr "You do not have permission to view this chat item")] 403.
Proof.
  refine (ask_then_get_chat_item (C := Sample.answering_cloud) ∅
            two_user_db 100 1 2 (Sample.question_body "Q") "Q" _ _ _ _ _).
  - vm_compute. reflexivity.
  - split; [reflexivity|eexists; reflexivity].
  - split; [reflexivity|eexists; reflexivity].
  - discriminate.
  - vm_compute. reflexivity.
Defined.

(** ** Totals and pages of the history *)

Lemma chats_of_snoc (db : Db) (c : ChatHistory) (uid : Z) :
  Query.chats_of {| users := users db; chats := chats db ++ [c] |} uid =
  (Query.chats_of db uid ++ if (chat_user_id c =? uid)%Z then [c] else [])%list.
Proof.
  unfold Query.chats_of. simpl chats.
  induction (chats db) as [|x l IH]; simpl; [reflexivity|].
  destruct (chat_user_id x =? uid)%Z; simpl; now rewrite IH.
Qed.

Lemma get_chat_history_total (db : Db) (uid : Z) (args : gmap string string) :
  account db uid ->
  (clamp_offset (Chat.args_get_int args "offset" 0) < 2 ^ 63)%Z ->
  field "total" (Route.get_chat_history db (as_user uid) args) =
  Some (PNum (Z.of_nat (List.length (Query.chats_of db uid)))).
Proof.
  intros Ha Ho.
  rewrite (route_get_chat_history _ _ _ Ha),
    (get_chat_history_response _ _ uid);
    [reflexivity|apply int_str|exact (proj1 Ha)|exact Ho].
Qed.

(** A recorded question raises the [total] that GET /chat-history reports to
    its owner by exactly one and leaves the total of every other user with an
    account as it was, for any pagination parameters the store can take. *)
Theorem ask_question_raises_total `{C : LlamaCloud}
        (config : gmap string string) (db : Db) (now uid other : Z)
        (data : gmap string json) (q : string)
        (args : gmap string string) :
  Schema.question_schema_load data = Ok q ->
  account db uid -> account db other ->
  other <> uid ->
  (clamp_offset (Chat.args_get_int args "offset" 0) < 2 ^ 63)%Z ->
  let db' := snd (Route.ask_question config db now (as_user uid) data) in
  exists n m : Z,
    field "total" (Route.get_chat_history db (as_user uid) args) =
      Some (PNum n)
    /\ field "total" (Route.get_chat_history db' (as_user uid) args) =
       Some (PNum (n + 1))
    /\ field "total" (Route.get_chat_history db (as_user other) args) =
       Some (PNum m)
    /\ field "total" (Route.get_chat_history db' (as_user other) args) =
       Some (PNum m).
Proof.
  intros Hload Ha Hb Hother Ho. cbv zeta.
  destruct Ha as [Hbind [user Huser]].
  assert (Ha : account db uid) by (split; eauto).
  rewrite (route_ask_question config db now uid data Ha).
  rewrite (ask_question_run config db now _ uid data q user Hload
             (int_str uid) Huser).
  cbn [snd].
  rewrite !get_chat_history_total;
    try assumption; try (now apply (account_same_users db)).
  rewrite !chats_of_snoc. cbn [chat_user_id].
  rewrite Z.eqb_refl.
  destruct (Z.eqb_spec uid other) as [E'|_]; [congruence|].
  rewrite app_nil_r, length_app. cbn [List.length].
  exists (Z.of_nat (List.length (Query.chats_of db uid))),
    (Z.of_nat (List.length (Query.chats_of db other))).
  split; [reflexivity|]. split; [|split; reflexivity].
  repeat f_equal. lia.
Qed.

Lemma ask_question_raises_total_witness :
  let db' := snd (Route.ask_question (H := Sample.answering_cloud) ∅
                    two_user_db 100 (as_user 1) (Sample.question_body "Q")) in
  exists n m : Z,
    field "total" (Route.get_chat_history two_user_db (as_user 1) ∅) =
      Some (PNum n)
    /\ field "total" (Route.get_chat_history db' (as_user 1) ∅) =
       Some (PNum (n + 1))
    /\ field "total" (Route.get_chat_history two_user_db (as_user 2) ∅) =
       Some (PNum m)
    /\ field "total" (Route.get_chat_history db' (as_user 2) ∅) =
       Some (PNum m).
Proof.
  refine (ask_question_raises_total (C := Sample.answering_cloud)
            ∅ two_user_db 100 1 2 (Sample.question_body "Q") "Q" ∅
            _ _ _ _ _).
  - vm_compute. reflexivity.
  - split; [reflexivity|eexists; reflexivity].
  - split; [reflexivity|eexists; reflexivity].
  - discriminate.
  - vm_compute. reflexivity.
Defined.

(** Whatever a request to GET /chat-history presents, the answer is 200, 401
    or 500, and a page answered with 200 holds at most [limit] entries,
    never more than 100, every one of them an entry of the store that
    belongs to the account of the token. *)
Theorem get_chat_history_page (db : Db) (auth : Guard.bearer)
        (args : gmap string string) :
  let r := Route.get_chat_history db auth args in
  (status r = 200%Z \/ status r = 401%Z \/ status r = 500%Z)
  /\ (status r = 200%Z ->
      exists t u page,
        auth = Guard.Signed t
        /\ Jwt.user_lookup_callback db t = Some u
        /\ field "chat_history" r = Some (PList (map to_dict page))
        /\ (Z.of_nat (List.length page)
            <= clamp_limit (Chat.args_get_int args "limit" 10) <= 100)%Z
        /\ (forall c, In c page ->
                      In c (chats db) /\ chat_user_id c = user_id u)).
Proof.
  cbv zeta. unfold Route.get_chat_history.
  destruct (Guard.jwt_required false db auth) as [t|r] eqn:Hg.
  - apply jwt_required_ok in Hg as (-> & uid & u & Hi & Hb & Hu & Hcb).
    unfold Jwt.get_jwt_identity.
    set (limit := clamp_limit (Chat.args_get_int args "limit" 10)).
    set (offset := clamp_offset (Chat.args_get_int args "offset" 0)).
    destruct (Z.lt_ge_cases offset (2 ^ 63)) as [Ho|Ho].
    + rewrite (get_chat_history_response db (sub t) uid args Hi Hb Ho).
      fold limit offset.
      split; [now left|]. intros _.
      exists t, u, (take (Z.to_nat limit) (drop (Z.to_nat offset) (listing db uid))).
      split; [reflexivity|]. split; [exact Hcb|]. split; [reflexivity|].
      pose proof (clamp_limit_range (Chat.args_get_int args "limit" 10)) as Hrange.
      fold limit in Hrange.
      split; [rewrite length_take; lia|].
      intros c Hc. apply user_get_id in Hu as [_ ->].
      apply listing_rows.
      apply list_elem_of_In. apply list_elem_of_In in Hc.
      eapply subseteq_drop, subseteq_take, Hc.
    + rewrite get_chat_history_overflow.
      * split; [now right; right|discriminate].
      * unfold offset, clamp_offset in Ho. lia.
  - destruct (jwt_required_raise _ _ _ _ Hg) as [H|H]; rewrite H.
    + split; [now right; left|discriminate].
    + split; [now right; right|discriminate].
Qed.

(** For a user with an account, an offset at or past the number of the
    user's entries, and one the store can take, gives an empty page, still
    with status 200 and the full total. *)
Theorem get_chat_history_past_the_end (db : Db) (uid offset : Z)
        (args : gmap string string) :
  account db uid ->
  args !! "offset" = Some (Py.str offset) ->
  (Z.of_nat (List.length (Query.chats_of db uid)) <= offset < 2 ^ 63)%Z ->
  Route.get_chat_history db (as_user uid) args =
  jsonify [("chat_history", PList []);
           ("total", PNum (Z.of_nat (List.length (Query.chats_of db uid))));
           ("limit", PNum (clamp_limit (Chat.args_get_int args "limit" 10)));
           ("offset", PNum offset)] 200.
Proof.
  intros Ha Hoff Hpast.
  assert (Ho : Chat.args_get_int args "offset" 0 = offset).
  { unfold Chat.args_get_int. now rewrite Hoff, int_str. }
  assert (Hc : clamp_offset (Chat.args_get_int args "offset" 0) = offset).
  { rewrite Ho. unfold clamp_offset. lia. }
  rewrite (route_get_chat_history _ _ _ Ha),
    (get_chat_history_response _ _ uid);
    [|apply int_str|exact (proj1 Ha)|rewrite Hc; lia].
  rewrite Hc, drop_ge, take_nil; [reflexivity|].
  rewrite listing_length. lia.
Qed.

Lemma get_chat_history_past_the_end_witness :
  Route.get_chat_history two_user_db (as_user 1) {[ "offset" := Py.str 5 ]} =
  jsonify [("chat_history", PList []);
           ("total", PNum (Z.of_nat (List.length (Query.chats_of two_user_db 1))));
           ("limit", PNum (clamp_limit
                             (Chat.args_get_int {[ "offset" := Py.str 5 ]} "limit" 10)));
           ("offset", PNum 5)] 200.
Proof.
  refine (get_chat_history_past_the_end two_user_db 1 5
            {[ "offset" := Py.str 5 ]} _ _ _).
  - split; [reflexivity|eexists; reflexivity].
  - reflexivity.
  - vm_compute. split; [discriminate|reflexivity].
Defined.

(** For a user with an account and an offset the store can take, the limit
    and the offset that are supplied as integers are used as follows: a
    limit inside [1,100] as it is, any other limit replaced by 10, a
    negative offset replaced by 0; the answer is 200 with that window of
    the user's listing and echoes the values used. *)
Theorem get_chat_history_clamps (db : Db) (uid limit offset : Z)
        (args : gmap string string) :
  account db uid ->
  args !! "limit" = Some (Py.str limit) ->
  args !! "offset" = Some (Py.str offset) ->
  (offset < 2 ^ 63)%Z ->
  let limit' := if ((1 <=? limit) && (limit <=? 100))%Z then limit else 10%Z in
  let offset' := if (offset <? 0)%Z then 0%Z else offset in
  Route.get_chat_history db (as_user uid) args =
  jsonify [("chat_history",
            PList (map to_dict
                     (take (Z.to_nat limit')
                        (drop (Z.to_nat offset') (listing db uid)))));
           ("total", PNum (Z.of_nat (List.length (Query.chats_of db uid))));
           ("limit", PNum limit');
           ("offset", PNum offset')] 200.
Proof.
  intros Ha Hl Ho Hrange. cbv zeta.
  assert (El : Chat.args_get_int args "limit" 10 = limit).
  { unfold Chat.args_get_int. now rewrite Hl, int_str. }
  assert (Eo : Chat.args_get_int args "offset" 0 = offset).
  { unfold Chat.args_get_int. now rewrite Ho, int_str. }
  rewrite (route_get_chat_history _ _ _ Ha),
    (get_chat_history_response _ _ uid);
    [|apply int_str|exact (proj1 Ha)|rewrite Eo; unfold clamp_offset; lia].
  rewrite El, Eo, <- clamp_offset_code. reflexivity.
Qed.

Lemma get_chat_history_clamps_witness :
  Route.get_chat_history two_user_db (as_user 1)
    {[ "limit" := "500"; "offset" := "-3" ]} =
  jsonify [("chat_history",
            PList [PDict [("id", PNum 1); ("user_id", PNum 1);
                          ("question", PStr "Q1"); ("response", PStr "R1");
                          ("timestamp", PTime 10)]]);
           ("total", PNum 1); ("limit", PNum 10); ("offset", PNum 0)] 200.
Proof.
  refine (get_chat_history_clamps two_user_db 1 500 (-3)
            {[ "limit" := "500"; "offset" := "-3" ]} _ eq_refl eq_refl _).
  - split; [reflexivity|eexists; reflexivity].
  - reflexivity.
Defined.

(** ** Single entries are shown to their owner only *)

(** Whatever a request to GET /chat-history/<id> presents, the answer is
    200, 401, 403, 404 or 500, and it is 200 only with an entry of the
    store that has the requested id and belongs to the account of the
    token. *)
Theorem get_chat_item_owner_only (db : Db) (auth : Guard.bearer) (chat_id : N) :
  let r := Route.get_chat_item db auth chat_id in
  (status r = 200%Z \/ status r = 401%Z \/ status r = 403%Z
   \/ status r = 404%Z \/ status r = 500%Z)
  /\ (status r = 200%Z ->
      exists t u c,
        auth = Guard.Signed t
        /\ Jwt.user_lookup_callback db t = Some u
        /\ In c (chats db) /\ id c = Z.of_N chat_id
        /\ chat_user_id c = user_id u
        /\ r = jsonify [("chat", to_dict c)] 200).
Proof.
  cbv zeta. unfold Route.get_chat_item.
  destruct (Guard.jwt_required false db auth) as [t|r] eqn:Hg.
  - apply jwt_required_ok in Hg as (-> & uid & u & Hi & _ & Hu & Hcb).
    apply user_get_id in Hu as [_ Hid].
    unfold Chat.get_chat_item, Query.chat_get, Jwt.get_jwt_identity.
    destruct (Sqlite.bindable (Z.of_N chat_id));
      [|split; [now do 4 right|discriminate]].
    rewrite Hi.
    destruct (List.find _ (chats db)) as [c|] eqn:Hfind.
    + apply find_some_in in Hfind as [Hin Hc%Z.eqb_eq].
      destruct (Z.eqb_spec (chat_user_id c) uid) as [Hown|Hother]; simpl.
      * split; [now left|]. intros _. exists t, u, c.
        rewrite Hid. auto 10.
      * split; [now right; right; left|discriminate].
    + simpl. split; [now right; right; right; left|discriminate].
  - destruct (jwt_required_raise _ _ _ _ Hg) as [H|H]; rewrite H.
    + split; [now right; left|discriminate].
    + split; [now do 4 right|discriminate].
Qed.

(** For a user with an account and an id the store can hold, GET
    /chat-history/<id> answers 404 when no entry has the id, 403 when the
    entry with the id belongs to another user, and 200 with the entry's
    fields when it belongs to the requester. *)
Theorem get_chat_item_access (db : Db) (requester : Z) (chat_id : N) :
  NoDup (map id (chats db)) ->
  account db requester ->
  (Z.of_N chat_id < 2 ^ 63)%Z ->
  ((forall c, In c (chats db) -> id c <> Z.of_N chat_id) ->
   Route.get_chat_item db (as_user requester) chat_id =
   jsonify [("error", PStr "Chat item not found")] 404)
  /\ (forall c, In c (chats db) -> id c = Z.of_N chat_id ->
      chat_user_id c <> requester ->
      Route.get_chat_item db (as_user requester) chat_id =
      jsonify [("error",
                PStr "You do not have permission to view this chat item")] 403)
  /\ (forall c, In c (chats db) -> id c = Z.of_N chat_id ->
      chat_user_id c = requester ->
      Route.get_chat_item db (as_user requester) chat_id =
      jsonify [("chat",
                PDict [("id", PNum (id c)); ("user_id", PNum (chat_user_id c));
                       ("question", PStr (question c));
                       ("response", PStr (response_text c));
                       ("timestamp", PTime (timestamp c))])] 200).
Proof.
  intros Hkey Ha Hrange.
  rewrite (route_get_chat_item _ _ _ Ha).
  unfold Chat.get_chat_item. rewrite chat_get_in_range by lia.
  split; [|split].
  - intros Habsent. now rewrite (find_absent id _ _ Habsent).
  - intros c Hin <- Hother.
    rewrite (find_present id _ _ Hkey Hin), int_str.
    destruct (Z.eqb_spec (chat_user_id c) requester); [contradiction|reflexivity].
  - intros c Hin <- Hown.
    rewrite (find_present id _ _ Hkey Hin), int_str.
    destruct (Z.eqb_spec (chat_user_id c) requester); [reflexivity|contradiction].
Qed.

Lemma get_chat_item_access_witness :
  Route.get_chat_item two_user_db (as_user 1) 3 =
    jsonify [("error", PStr "Chat item not found")] 404
  /\ Route.get_chat_item two_user_db (as_user 1) 2 =
    jsonify [("error",
              PStr "You do not have permission to view this chat item")] 403
  /\ Route.get_chat_item two_user_db (as_user 1) 1 =
    jsonify [("chat",
              PDict [("id", PNum 1); ("user_id", PNum 1);
                     ("question", PStr "Q1"); ("response", PStr "R1");
                     ("timestamp", PTime 10)])] 200.
Proof.
  assert (Hkey : NoDup (map id (chats two_user_db))).
  { simpl. apply NoDup_cons. split; [|apply NoDup_singleton].
    apply not_elem_of_cons. split; [discriminate|apply not_elem_of_nil]. }
  assert (Ha : account two_user_db 1)
    by (split; [reflexivity|eexists; reflexivity]).
  split; [|split].
  - apply (proj1 (get_chat_item_access two_user_db 1 3 Hkey Ha eq_refl)).
    simpl. intros c [E|[E|[]]]; subst c; simpl; lia.
  - apply (proj1 (proj2 (get_chat_item_access two_user_db 1 2 Hkey Ha eq_refl))
             {| id := 2; chat_user_id := 2; question := "Q2";
                response_text := "R2"; timestamp := 20 |});
      simpl; auto; lia.
  - apply (proj2 (proj2 (get_chat_item_access two_user_db 1 1 Hkey Ha eq_refl))
             {| id := 1; chat_user_id := 1; question := "Q1";
                response_text := "R1"; timestamp := 10 |});
      simpl; auto.
Defined.

(** ** Which bodies the schemas accept *)

Lemma filter_nil_iff {A} (f : A -> bool) (l : list A) :
  List.filter f l = [] <-> forall x, In x l -> f x = false.
Proof.
  induction l as [|y l IH]; simpl.
  - split; [intros _ x []|reflexivity].
  - destruct (f y) eqn:Hy.
    + split; [discriminate|]. intros H. specialize (H y (or_introl eq_refl)).
      congruence.
    + rewrite IH. split.
      * intros H x [<-|Hx]; auto.
      * intros H x Hx. apply H. now right.
Qed.

Lemma unknown_fields_nil (known : list string) (data : gmap string json) :
  Schema.unknown_fields known data = [] <->
  forall k, is_Some (data !! k) -> In k known.
Proof.
  unfold Schema.unknown_fields. rewrite filter_nil_iff. split.
  - intros H k [v Hv].
    specialize (H k). rewrite negb_false_iff in H.
    assert (Hk : In k (map fst (map_to_list data))).
    { apply list_elem_of_In, list_elem_of_fmap. exists (k, v).
      split; [reflexivity|]. now apply elem_of_map_to_list. }
    apply H, existsb_exists in Hk as (k' & Hk' & E%String.eqb_eq). now subst.
  - intros H k Hk. apply negb_false_iff, existsb_exists.
    apply list_elem_of_In, list_elem_of_fmap in Hk as ([k' v] & -> & Hkv).
    apply elem_of_map_to_list in Hkv. simpl.
    exists k'. split; [apply H; eauto|apply String.eqb_refl].
Qed.

Lemma load_str_ok_iff data name valid s :
  Schema.load_str data name valid = Ok s <->
  data !! name = Some (JStr s) /\ valid s = true.
Proof.
  split; [apply load_str_value|].
  intros [Hd Hv]. unfold Schema.load_str. now rewrite Hd, Hv.
Qed.

Lemma question_schema_load_iff (data : gmap string json) (q : string) :
  Schema.question_schema_load data = Ok q <-> data = {[ "question" := JStr q ]}.
Proof.
  unfold Schema.question_schema_load. split.
  - destruct (Schema.load_str data "question" _) as [s|] eqn:Hs; [|discriminate].
    destruct (Schema.unknown_fields _ data) eqn:Hunk; [|discriminate].
    intros [= <-]. apply load_str_value in Hs as [Hs _].
    apply map_eq. intros k.
    destruct (decide (k = "question")) as [->|Hk].
    + now rewrite Hs, lookup_singleton_eq.
    + rewrite lookup_singleton_ne by congruence.
      destruct (data !! k) eqn:Hdk; [|reflexivity].
      exfalso.
      destruct (proj1 (unknown_fields_nil _ _) Hunk k (mk_is_Some _ _ Hdk))
        as [<-|[]].
      congruence.
  - intros ->.
    assert (Hq : Schema.load_str {[ "question" := JStr q ]} "question"
                   (fun _ => true) = Ok q).
    { apply load_str_ok_iff. now rewrite lookup_singleton_eq. }
    assert (Hunk : Schema.unknown_fields ["question"] {[ "question" := JStr q ]} = []).
    { apply unknown_fields_nil. intros k [v Hv].
      apply lookup_singleton_Some in Hv as [<- _]. now left. }
    now rewrite Hq, Hunk.
Qed.

(** [QuestionSchema] accepts a body exactly when it is an object with the
    single key [question] and a string value, the empty string included;
    to a user with an account POST /ask-question answers exactly the other
    bodies with 400, and then leaves the store as it was. *)
Theorem question_schema_accepts `{C : LlamaCloud} (data : gmap string json) :
  (forall q, Schema.question_schema_load data = Ok q <->
             data = {[ "question" := JStr q ]})
  /\ (forall config db now uid,
        account db uid ->
        let r := Route.ask_question config db now (as_user uid) data in
        (status (fst r) = 400%Z <-> forall q, data <> {[ "question" := JStr q ]})
        /\ (status (fst r) = 400%Z -> snd r = db)).
Proof.
  split; [intros q; apply question_schema_load_iff|].
  intros config db now uid Ha. cbv zeta.
  rewrite (route_ask_question config db now uid data Ha).
  generalize (Py.str uid). intros identity. unfold Chat.ask_question.
  destruct (Schema.question_schema_load data) as [q|err] eqn:Hload.
  - apply question_schema_load_iff in Hload.
    assert (Hnot : status (fst
              match Py.int identity with
              | Some uid =>
                  match Query.user_get db uid with
                  | Some user =>
                      match LlamaService.get_response config
                              (Security.sanitize_input q) with
                      | Ok response =>
                          let '(chat_history, db') :=
                            Query.add_chat db now (user_id user)
                              (Security.sanitize_input q) response in
                          (jsonify [("question", PStr (Security.sanitize_input q));
                                    ("response", PStr response);
                                    ("chat_id", PNum (id chat_history))] 200, db')
                      | Raise _ => (internal_server_error, db)
                      end
                  | None => (jsonify [("error", PStr "User not found")] 404, db)
                  end
              | None => (internal_server_error, db)
              end) <> 400%Z).
    { destruct (Py.int identity); [|discriminate].
      destruct (Query.user_get db _); [|discriminate].
      destruct (LlamaService.get_response config _); discriminate. }
    split; [split|]; intros H; try contradiction.
    now elim (H q).
  - simpl. split; [|reflexivity]. split; [|reflexivity].
    intros _ q Hq. apply question_schema_load_iff in Hq. congruence.
Qed.

(** [UserSchema] accepts a body exactly when it is an object with the three
    keys [username], [email] and [password] and nothing else, all strings,
    the username of 3 to 50 characters, the e-mail accepted by the e-mail
    field and the password of at least 8 characters. *)
Theorem user_schema_accepts `{EL : EmailLibs} (data : gmap string json)
        (v : Schema.UserData) :
  Schema.user_schema_load data = Ok v <->
  data = {[ "username" := JStr (Schema.v_username v);
            "email" := JStr (Schema.v_email v);
            "password" := JStr (Schema.v_password v) ]}
  /\ (3 <= String.length (Schema.v_username v) <= 50)%nat
  /\ marshmallow_email (Schema.v_email v) = true
  /\ (8 <= String.length (Schema.v_password v))%nat.
Proof.
  unfold Schema.user_schema_load. split.
  - destruct (Schema.load_str data "username" _) as [u|] eqn:Hu; [|discriminate].
    destruct (Schema.load_str data "email" _) as [e|] eqn:He; [|discriminate].
    destruct (Schema.load_str data "password" _) as [p|] eqn:Hp; [|discriminate].
    destruct (Schema.unknown_fields _ data) eqn:Hunk; [|discriminate].
    intros [= <-]. simpl.
    apply load_str_value in Hu as [Hu Hlu], He as [He Hme], Hp as [Hp Hlp].
    unfold Schema.length_between in Hlu. apply andb_prop in Hlu as [Hlo Hhi].
    apply Nat.leb_le in Hlo, Hhi. apply Nat.leb_le in Hlp.
    split; [|auto].
    apply map_eq. intros k.
    destruct (decide (k = "username")) as [->|Hku].
    { now rewrite Hu, lookup_insert_eq. }
    rewrite lookup_insert_ne by congruence.
    destruct (decide (k = "email")) as [->|Hke].
    { now rewrite He, lookup_insert_eq. }
    rewrite lookup_insert_ne by congruence.
    destruct (decide (k = "password")) as [->|Hkp].
    { now rewrite Hp, lookup_singleton_eq. }
    rewrite lookup_singleton_ne by congruence.
    destruct (data !! k) eqn:Hdk; [|reflexivity].
    exfalso.
    destruct (proj1 (unknown_fields_nil _ _) Hunk k (mk_is_Some _ _ Hdk))
      as [<-|[<-|[<-|[]]]]; congruence.
  - intros (-> & [Hlo Hhi] & Hme & Hlp).
    set (data := ({[ "username" := JStr (Schema.v_username v);
                     "email" := JStr (Schema.v_email v);
                     "password" := JStr (Schema.v_password v) ]}
                  : gmap string json)).
    assert (Hu : Schema.load_str data "username" (Schema.length_between 3 50)
                 = Ok (Schema.v_username v)).
    { apply load_str_ok_iff. split; [apply lookup_insert_eq|].
      unfold Schema.length_between. apply andb_true_intro.
      split; now apply Nat.leb_le. }
    assert (He : Schema.load_str data "email" marshmallow_email
                 = Ok (Schema.v_email v)).
    { apply load_str_ok_iff. split; [|exact Hme]. unfold data.
      rewrite lookup_insert_ne by discriminate. apply lookup_insert_eq. }
    assert (Hp : Schema.load_str data "password" (Schema.length_at_least 8)
                 = Ok (Schema.v_password v)).
    { apply load_str_ok_iff. split; [|now apply Nat.leb_le]. unfold data.
      rewrite !lookup_insert_ne by discriminate. apply lookup_singleton_eq. }
    assert (Hunk : Schema.unknown_fields ["username"; "email"; "password"] data = []).
    { apply unknown_fields_nil. intros k [x Hx]. unfold data in Hx.
      apply lookup_insert_Some in Hx as [[<- _]|[_ Hx]]; [now left|].
      apply lookup_insert_Some in Hx as [[<- _]|[_ Hx]]; [now right; left|].
      apply lookup_singleton_Some in Hx as [<- _]. now right; right; left. }
    rewrite Hu, He, Hp, Hunk. now destruct v.
Qed.

(** ** [retrieve_context] *)

(** [retrieve_context] never raises: it returns the retrieved nodes when the
    index, the retriever and the retrieval all succeed, and the empty list
    when any of them raises. *)
Theorem retrieve_context_total `{R : LlamaRetriever}
        (config : gmap string string) (query : string) :
  exists nodes,
    Retrieval.retrieve_context config query = Ok nodes
    /\ (forall e,
          LlamaCloudIndex (config !! "LLAMA_CLOUD_INDEX_NAME")
                          (config !! "LLAMA_CLOUD_PROJECT_NAME")
                          (config !! "LLAMA_CLOUD_ORGANIZATION_ID")
                          (config !! "LLAMA_CLOUD_API_KEY") = Raise e ->
          nodes = [])
    /\ (forall index,
          LlamaCloudIndex (config !! "LLAMA_CLOUD_INDEX_NAME")
                          (config !! "LLAMA_CLOUD_PROJECT_NAME")
                          (config !! "LLAMA_CLOUD_ORGANIZATION_ID")
                          (config !! "LLAMA_CLOUD_API_KEY") = Ok index ->
          (forall e, as_retriever index = Raise e -> nodes = [])
          /\ (forall retriever,
                as_retriever index = Ok retriever ->
                (forall e, retriever_retrieve retriever query = Raise e ->
                           nodes = [])
                /\ (forall found, retriever_retrieve retriever query = Ok found ->
                                  nodes = found))).
Proof.
  unfold Retrieval.retrieve_context, Retrieval.retrieve_context_try.
  destruct (LlamaCloudIndex _ _ _ _) as [index|e0]; simpl.
  2: { eexists. split; [reflexivity|]. split; [reflexivity|discriminate]. }
  destruct (as_retriever index) as [retriever|e1] eqn:Hr; simpl.
  2: { eexists. split; [reflexivity|]. split; [discriminate|].
       intros ? [= <-]. rewrite Hr. split; [reflexivity|discriminate]. }
  destruct (retriever_retrieve retriever query) as [found|e2] eqn:Hf; simpl.
  - eexists. split; [reflexivity|]. split; [discriminate|].
    intros ? [= <-]. rewrite Hr. split; [discriminate|].
    intros ? [= <-]. rewrite Hf. split; [discriminate|].
    now intros ? [= <-].
  - eexists. split; [reflexivity|]. split; [discriminate|].
    intros ? [= <-]. rewrite Hr. split; [discriminate|].
    intros ? [= <-]. rewrite Hf. split; [reflexivity|discriminate].
Qed.

(** ** Examples for the lemmas on login, signup and questions *)

Lemma login_missing_password_witness :
  Auth.login Sample.db_one_user {[ "username" := "testuser" ]} =
  invalid_credentials.
Proof.
  refine (login_missing_password (EL := Sample.email_libs)
            (LC := Sample.answering_cloud) ∅ Sample.db_one_user
            {[ "username" := "testuser" ]} db_one_user_reachable _).
  reflexivity.
Defined.

Lemma signup_stores_submitted_email_witness :
  exists u submitted,
    Sample.signup_body "alice" "Alice@EXAMPLE.COM" "Aa1!aaaa" !! "email" =
      Some (JStr submitted)
    /\ email u = submitted
    /\ users (snd (Auth.signup (H := Sample.email_libs) empty_db
                     (Sample.signup_body "alice" "Alice@EXAMPLE.COM" "Aa1!aaaa")))
       = (users empty_db ++ [u])%list
    /\ body (fst (Auth.signup (H := Sample.email_libs) empty_db
                    (Sample.signup_body "alice" "Alice@EXAMPLE.COM" "Aa1!aaaa")))
       = PDict [("message", PStr "User created successfully");
                ("user", user_to_dict u)].
Proof.
  refine (signup_stores_submitted_email (H := Sample.email_libs) empty_db
            (Sample.signup_body "alice" "Alice@EXAMPLE.COM" "Aa1!aaaa") _).
  vm_compute. reflexivity.
Defined.

Lemma ask_question_echo_witness :
  exists answer,
    LlamaService.get_response (H := Sample.answering_cloud) ∅
      (Security.sanitize_input "select Q") = Ok answer
    /\ Chat.ask_question (H := Sample.answering_cloud) ∅ Sample.db_one_user 100
         (Py.str 1) (Sample.question_body "select Q") =
       (jsonify [("question", PStr (Security.sanitize_input "select Q"));
                 ("response", PStr answer);
                 ("chat_id", PNum (Query.next_id (map id (chats Sample.db_one_user))))]
          200,
        {| users := users Sample.db_one_user;
           chats := chats Sample.db_one_user ++
             [ {| id := Query.next_id (map id (chats Sample.db_one_user));
                  chat_user_id := user_id Sample.testuser;
                  question := Security.sanitize_input "select Q";
                  response_text := answer;
                  timestamp := 100 |} ] |}).
Proof.
  refine (ask_question_echo (C := Sample.answering_cloud) ∅ Sample.db_one_user
            100 1 (Sample.question_body "select Q") "select Q" Sample.testuser
            _ _).
  - vm_compute. reflexivity.
  - reflexivity.
Defined.

(** ** Token subjects tell users apart *)

(** The decimal string of an identifier determines the identifier, so the
    tokens issued for two different users never carry the same subject. *)
Theorem token_subjects_distinct (a b : Z) :
  (Py.str a = Py.str b -> a = b)
  /\ (sub (Jwt.create_access_token a) = sub (Jwt.create_access_token b) -> a = b)
  /\ (sub (Jwt.create_refresh_token a) = sub (Jwt.create_refresh_token b) -> a = b).
Proof.
  assert (Hinj : Py.str a = Py.str b -> a = b).
  { intros E. pose proof (int_str a) as Ha. rewrite E, int_str in Ha. congruence. }
  repeat split; exact Hinj.
Qed.
